(** * NovaNews PWA: the article engine, the screen selector and the
      contact-form function

    A shallow embedding of
    - [App.tsx]: the article store ([handleBookmark]), the category filter
      ([filteredArticles]), the featured/regular split, the saved list and
      the choice of the top-level screen;
    - [components/SearchDialog.tsx]: the search filter;
    - [components/OfflinePage.tsx], [components/ArticleView.tsx],
      [components/ArticleCard.tsx], [components/Navigation.tsx],
      [components/Header.tsx], [components/SettingsDialog.tsx],
      [components/InstallPrompt.tsx]: which callback each screen offers;
    - [netlify/functions/contact-form.js]: the request handler.

    JavaScript strings are sequences of UTF-16 code units, arrays are lists,
    [Array.prototype.filter] is [filter], [slice(0, n)] is [take n],
    [slice(1)] is [drop 1] and [xs[0]] is [xs !! 0]. *)

From stdpp Require Import base decidable option list.
From Stdlib Require Import NArith String Ascii DecimalString DecimalPos DecimalN.

Set Warnings "-register-all".

(** [length] is the length of a list, not of a [string]. *)
Abbreviation length := List.length.

Local Open Scope N_scope.

(* ===================================================================== *)
(** ** JavaScript strings *)
(* ===================================================================== *)

(** A string value is its sequence of UTF-16 code units. *)
Abbreviation code_unit := N (only parsing).
Abbreviation jsstring := (list N) (only parsing).

(** A source literal whose characters are all below U+0100. *)
Definition lit (s : string) : jsstring :=
  N_of_ascii <$> list_ascii_of_string s.

(** ECMA-262 WhiteSpace and LineTerminator: the code points removed by
    [String.prototype.trim] and matched by the regular-expression class
    [\s]. All of them lie in the Basic Multilingual Plane, so each is one
    code unit. *)
Definition isWhiteSpace (c : code_unit) : bool :=
  (c =? 0x0009) || (c =? 0x000A) || (c =? 0x000B) || (c =? 0x000C) ||
  (c =? 0x000D) || (c =? 0x0020) || (c =? 0x00A0) || (c =? 0x1680) ||
  ((0x2000 <=? c) && (c <=? 0x200A)) ||
  (c =? 0x2028) || (c =? 0x2029) || (c =? 0x202F) || (c =? 0x205F) ||
  (c =? 0x3000) || (c =? 0xFEFF).

(** [String.prototype.trimStart] *)
Fixpoint trimStart (s : jsstring) : jsstring :=
  match s with
  | [] => []
  | c :: s' => if isWhiteSpace c then trimStart s' else s
  end.

(** [String.prototype.trimEnd] *)
Definition trimEnd (s : jsstring) : jsstring :=
  reverse (trimStart (reverse s)).

(** [String.prototype.trim] *)
Definition trim (s : jsstring) : jsstring := trimEnd (trimStart s).

(** ToBoolean on a string: only the empty string is falsy. *)
Definition truthy_string (s : jsstring) : bool :=
  match s with [] => false | _ :: _ => true end.

(** [s.startsWith(t)] *)
Fixpoint startsWith (s t : jsstring) {struct t} : bool :=
  match t, s with
  | [], _ => true
  | _ :: _, [] => false
  | c :: t', d :: s' => (c =? d) && startsWith s' t'
  end.

(** [s.includes(t)]: [t] occurs in [s] at some position. *)
Fixpoint includes (s t : jsstring) : bool :=
  startsWith s t ||
  match s with
  | [] => false
  | _ :: s' => includes s' t
  end.

(** *** Built-ins left open

    Two built-ins are not written out: the Unicode case mapping of
    [String.prototype.toLowerCase], and the Number values with their
    conversions to Boolean and to String. Every definition and theorem that
    goes through them holds for whatever they are. *)
Class Platform := {
  (** [String.prototype.toLowerCase] *)
  toLowerCase : jsstring → jsstring;
  (** the Number values [JSON.parse] can return *)
  number : Type;
  (** ToBoolean on a Number: [false] on [+0] and [-0] only *)
  Number_ToBoolean : number → bool;
  (** [Number::toString(x)] in radix 10 *)
  Number_ToString : number → jsstring;
}.

(** [toLowerCase] on strings whose code units are all below U+0080: it maps
    [A-Z] to [a-z] and nothing else. *)
Definition asciiToLowerCase (s : jsstring) : jsstring :=
  (λ c, if (0x41 <=? c) && (c <=? 0x5A) then c + 0x20 else c) <$> s.

(** The decimal digits of a natural number, as [Number::toString] prints
    the integers below 10^21. *)
Definition decimal (n : N) : jsstring :=
  lit (NilZero.string_of_uint (N.to_uint n)).

(** The instance used to run the definitions on concrete inputs: ASCII
    text, and the non-negative integers below 10^21 as Numbers. *)
Definition ascii_platform : Platform :=
  {| toLowerCase := asciiToLowerCase;
     number := N;
     Number_ToBoolean := λ x, negb (x =? 0);
     Number_ToString := decimal |}.

(** [t] occurs in [s] as a contiguous run of code units. *)
Definition substring_of (t s : jsstring) : Prop :=
  ∃ pre post : jsstring, s = pre ++ t ++ post.

(** A string that is empty or made of white space only. *)
Definition whitespace_only (s : jsstring) : Prop :=
  Forall (λ c, isWhiteSpace c = true) s.

(* ===================================================================== *)
(** ** Articles *)
(* ===================================================================== *)

(** [interface Article] of [App.tsx]. *)
Record Article := mkArticle {
  id : jsstring;
  title : jsstring;
  excerpt : jsstring;
  content : jsstring;
  imageUrl : jsstring;
  category : jsstring;
  author : jsstring;
  publishedAt : jsstring;
  readTime : jsstring;
  isBookmarked : bool;
}.

Global Instance Article_eq_dec : EqDecision Article.
Proof. solve_decision. Defined.

(** [{ ...article, isBookmarked: b }] *)
Definition with_isBookmarked (article : Article) (b : bool) : Article :=
  {| id := id article;
     title := title article;
     excerpt := excerpt article;
     content := content article;
     imageUrl := imageUrl article;
     category := category article;
     author := author article;
     publishedAt := publishedAt article;
     readTime := readTime article;
     isBookmarked := b |}.

(** Two articles that agree on every field but [author] and [content]. *)
Definition same_but_author_content (a b : Article) : Prop :=
  id a = id b ∧ title a = title b ∧ excerpt a = excerpt b ∧
  imageUrl a = imageUrl b ∧ category a = category b ∧
  publishedAt a = publishedAt b ∧ readTime a = readTime b ∧
  isBookmarked a = isBookmarked b.

(** [{ ...article, author, content }] *)
Definition with_author_content (article : Article) (author' content' : jsstring)
  : Article :=
  {| id := id article;
     title := title article;
     excerpt := excerpt article;
     content := content';
     imageUrl := imageUrl article;
     category := category article;
     author := author';
     publishedAt := publishedAt article;
     readTime := readTime article;
     isBookmarked := isBookmarked article |}.

(** A template literal whose paragraphs are separated by one empty line. *)
Fixpoint paragraphs (ps : list string) : jsstring :=
  match ps with
  | [] => []
  | [p] => lit p
  | p :: ps' => lit p ++ [0x0A; 0x0A] ++ paragraphs ps'
  end.

(** The six object literals of [mockArticles], named by their [id]. *)
Definition article_1 : Article :=
  {| id := lit "1";
     title := lit "Breaking: Major Economic Policy Changes Announced for 2025";
     excerpt := lit "The government has unveiled comprehensive economic reforms that will reshape the business landscape across South Africa.";
     content := paragraphs [
       "The South African government has announced sweeping economic policy changes that are set to take effect in early 2025. These reforms, described as the most significant in a decade, aim to stimulate growth and attract foreign investment.";
       "Key changes include new tax incentives for businesses, streamlined regulatory processes, and enhanced support for small and medium enterprises. The Minister of Finance emphasized that these measures are designed to create jobs and boost economic recovery.";
       "The private sector has responded positively to the announcements, with several major corporations already indicating plans to expand their operations. Economic analysts predict that these changes could lead to a significant increase in GDP growth over the next two years.";
       "However, some critics argue that the reforms may not address fundamental structural issues in the economy. They call for more comprehensive changes to education, infrastructure, and governance systems.";
       "The implementation timeline for these policies has been set for March 2025, with a phased approach to ensure smooth transition for all stakeholders."];
     imageUrl := lit "https://images.unsplash.com/photo-1585829365295-ab7cd400c167?crop=entropy&cs=tinysrgb&fit=max&fm=jpg&ixid=M3w3Nzg4Nzd8MHwxfHNlYXJjaHwxfHxicmVha2luZyUyMG5ld3N8ZW58MXx8fHwxNzU3NjM1MjgxfDA&ixlib=rb-4.1.0&q=80&w=1080&utm_source=figma&utm_medium=referral";
     category := lit "breaking";
     author := lit "Sarah Johnson";
     publishedAt := lit "2024-12-18T08:30:00Z";
     readTime := lit "4 min read";
     isBookmarked := false |}%string.

Definition article_2 : Article :=
  {| id := lit "2";
     title := lit "Local Business Leaders Discuss Post-Pandemic Recovery Strategies";
     excerpt := lit "Industry executives share insights on navigating the new business environment and opportunities for growth.";
     content := paragraphs [
       "Business leaders from across various sectors gathered at the annual Economic Forum to discuss recovery strategies and future opportunities in the post-pandemic era.";
       "The discussions centered around digital transformation, supply chain resilience, and the changing nature of work. Many companies have accelerated their digital initiatives, with some reporting productivity gains of up to 30%.";
       "Key themes that emerged include the importance of agile business models, investment in employee wellbeing, and sustainable business practices. Several speakers highlighted the need for businesses to be more responsive to changing consumer preferences.";
       "The forum also addressed challenges such as skills shortages, rising operational costs, and regulatory uncertainty. Participants shared practical solutions and collaborative approaches to overcome these obstacles.";
       "Looking ahead, there was optimism about the potential for innovation and growth, particularly in technology, renewable energy, and healthcare sectors."];
     imageUrl := lit "https://images.unsplash.com/photo-1606836591695-4d58a73eba1e?crop=entropy&cs=tinysrgb&fit=max&fm=jpg&ixid=M3w3Nzg4Nzd8MHwxfHNlYXJjaHwxfHxidXNpbmVzcyUyMG1lZXRpbmd8ZW58MXx8fHwxNzU3NjYxMTk0fDA&ixlib=rb-4.1.0&q=80&w=1080&utm_source=figma&utm_medium=referral";
     category := lit "business";
     author := lit "Michael Chen";
     publishedAt := lit "2024-12-18T06:15:00Z";
     readTime := lit "6 min read";
     isBookmarked := true |}%string.

Definition article_3 : Article :=
  {| id := lit "3";
     title := lit "Rugby World Cup Preparations Intensify as Team Finalizes Squad";
     excerpt := lit "The national rugby team is making final preparations with key player selections announced ahead of the championship.";
     content := paragraphs [
       "The national rugby team has announced its final squad for the upcoming international championships, with several surprise inclusions that have excited fans and pundits alike.";
       "Coach Williams emphasized the team's focus on youth and experience, selecting a balanced squad that combines veteran leadership with emerging talent. The selection process was described as the most competitive in recent years.";
       "Training camps have been intensified, with players working on specific game strategies and fitness protocols. The coaching staff has implemented new tactical approaches based on analysis of recent international matches.";
       "Several key players have returned from injury, adding depth to the squad. The captain expressed confidence in the team's preparation and their ability to compete at the highest level.";
       "Fans are showing tremendous support, with ticket sales for home matches exceeding expectations. The team's preparation has been closely followed by media and supporters who are optimistic about their chances."];
     imageUrl := lit "https://images.unsplash.com/photo-1565483276060-e6730c0cc6a1?crop=entropy&cs=tinysrgb&fit=max&fm=jpg&ixid=M3w3Nzg4Nzd8MHwxfHNlYXJjaHwxfHxzcG9ydHMlMjBzdGFkaXVtfGVufDF8fHx8MTc1NzYxNjUxOHww&ixlib=rb-4.1.0&q=80&w=1080&utm_source=figma&utm_medium=referral";
     category := lit "sport";
     author := lit "David Thompson";
     publishedAt := lit "2024-12-17T14:20:00Z";
     readTime := lit "3 min read";
     isBookmarked := false |}%string.

Definition article_4 : Article :=
  {| id := lit "4";
     title := lit "Parliamentary Debate on Education Reform Draws Public Interest";
     excerpt := lit "Proposed changes to the education system spark heated discussions among politicians and education experts.";
     content := paragraphs [
       "The ongoing parliamentary debate on education reform has captured public attention, with proposed changes affecting curriculum, teacher training, and school infrastructure investment.";
       "The Education Minister outlined a comprehensive plan to modernize the education system, including increased digital literacy programs, revised teacher qualification requirements, and substantial infrastructure improvements.";
       "Opposition parties have raised concerns about implementation timelines and budget allocations, calling for more detailed financial planning and phased rollouts. They argue that previous reforms lacked adequate consultation with educators and communities.";
       "Education unions have organized consultations to gather input from teachers and school administrators. Their preliminary feedback highlights the need for adequate training and resources to support any new initiatives.";
       "Parents and community organizations have also voiced their opinions, with many supporting the direction of reforms while expressing concerns about disruption to current students' education.";
       "The debate is expected to continue for several weeks, with committee hearings scheduled to examine specific aspects of the proposed reforms in detail."];
     imageUrl := lit "https://images.unsplash.com/photo-1510993968327-0766450f8a11?crop=entropy&cs=tinysrgb&fit=max&fm=jpg&ixid=M3w3Nzg4Nzd8MHwxfHNlYXJjaHwxfHxwb2xpdGljcyUyMGdvdmVybm1lbnR8ZW58MXx8fHwxNzU3NjE2NTE5fDA&ixlib=rb-4.1.0&q=80&w=1080&utm_source=figma&utm_medium=referral";
     category := lit "politics";
     author := lit "Anna Williams";
     publishedAt := lit "2024-12-17T11:45:00Z";
     readTime := lit "5 min read";
     isBookmarked := false |}%string.

Definition article_5 : Article :=
  {| id := lit "5";
     title := lit "Fashion Week Showcases Sustainable Design Trends";
     excerpt := lit "Local designers embrace eco-friendly materials and ethical production methods in their latest collections.";
     content := paragraphs [
       "This year's Fashion Week has highlighted a significant shift towards sustainable and ethical fashion, with designers showcasing innovative approaches to eco-friendly design.";
       "Prominent local designers have embraced organic materials, recycled fabrics, and zero-waste production methods. The collections demonstrate that sustainable fashion can be both stylish and commercially viable.";
       "Several designers have partnered with local artisans and community cooperatives, creating employment opportunities while preserving traditional craftsmanship. These collaborations have resulted in unique pieces that tell authentic stories.";
       "The event featured panel discussions on the future of fashion, addressing topics such as circular economy principles, consumer behavior changes, and the role of technology in sustainable production.";
       "Fashion retailers have shown strong interest in the sustainable collections, with several major brands already placing orders. Industry experts predict that this trend will continue to grow as consumers become more environmentally conscious.";
       "The success of this year's sustainable fashion showcase has positioned local designers as leaders in the global movement towards responsible fashion."];
     imageUrl := lit "https://images.unsplash.com/photo-1610244922760-8bd7d912c4d8?crop=entropy&cs=tinysrgb&fit=max&fm=jpg&ixid=M3w3Nzg4Nzd8MHwxfHNlYXJjaHwxfHxsaWZlc3R5bGUlMjBmYXNoaW9ufGVufDF8fHx8MTc1NzY3MzM1Mnww&ixlib=rb-4.1.0&q=80&w=1080&utm_source=figma&utm_medium=referral";
     category := lit "lifestyle";
     author := lit "Emma Davis";
     publishedAt := lit "2024-12-16T16:30:00Z";
     readTime := lit "4 min read";
     isBookmarked := true |}%string.

Definition article_6 : Article :=
  {| id := lit "6";
     title := lit "Tech Innovation Hub Launches New Startup Accelerator Program";
     excerpt := lit "Local entrepreneurs gain access to mentorship, funding, and resources through the new initiative.";
     content := paragraphs [
       "The recently launched startup accelerator program at the city's Tech Innovation Hub is set to support the next generation of entrepreneurs with comprehensive resources and mentorship opportunities.";
       "The program offers a 12-week intensive course covering business development, technology implementation, market research, and funding strategies. Participants will work directly with industry mentors and successful entrepreneurs.";
       "Selection criteria emphasize innovation potential, scalability, and positive social impact. The first cohort includes startups focused on fintech, healthtech, and sustainable technology solutions.";
       "Funding opportunities include seed investment, grants, and connections to venture capital networks. The program also provides access to state-of-the-art facilities and technical resources.";
       "Program directors report overwhelming interest, with applications received from across the region. The diversity of applicants reflects the broad appeal of entrepreneurship and innovation in the current economic climate.";
       "Success metrics will include job creation, revenue generation, and successful funding rounds for participating startups. The program aims to establish the region as a leading technology and innovation center."];
     imageUrl := lit "https://images.unsplash.com/photo-1568952433726-3896e3881c65?crop=entropy&cs=tinysrgb&fit=max&fm=jpg&ixid=M3w3Nzg4Nzd8MHwxfHNlYXJjaHwxfHx0ZWNobm9sb2d5JTIwaW5ub3ZhdGlvbnxlbnwxfHx8fDE3NTc1NzYyOTd8MA&ixlib=rb-4.1.0&q=80&w=1080&utm_source=figma&utm_medium=referral";
     category := lit "technology";
     author := lit "James Wilson";
     publishedAt := lit "2024-12-16T10:00:00Z";
     readTime := lit "3 min read";
     isBookmarked := false |}%string.

(** The seeded collection [mockArticles]. *)
Definition mockArticles : list Article :=
  [article_1; article_2; article_3; article_4; article_5; article_6].

(* ===================================================================== *)
(** ** Search ([SearchDialog.tsx]) *)
(* ===================================================================== *)

Module SearchDialog.
Section Search.
Context `{Platform}.

(** The arrow function given to [articles.filter]. The query is
    lower-cased as typed: only the emptiness test trims it. *)
Definition matchesQuery (query : jsstring) (article : Article) : bool :=
  includes (toLowerCase (title article)) (toLowerCase query) ||
  includes (toLowerCase (excerpt article)) (toLowerCase query) ||
  includes (toLowerCase (category article)) (toLowerCase query).

(** [const filteredArticles = query.trim() ? articles.filter(..).slice(0, 8) : []] *)
Definition filteredArticles (articles : list Article) (query : jsstring)
  : list Article :=
  if truthy_string (trim query)
  then take 8 (filter (λ article, matchesQuery query article) articles)
  else [].

(** The match set without the cap of eight. *)
Definition allMatches (articles : list Article) (query : jsstring)
  : list Article :=
  filter (λ article, matchesQuery query article) articles.

(** [q], compared without regard to case, occurs in [field]. *)
Definition occurs_ignoring_case (q field : jsstring) : Prop :=
  substring_of (toLowerCase q) (toLowerCase field).
End Search.
End SearchDialog.


(* ===================================================================== *)
(** ** The application component ([App.tsx]) *)
(* ===================================================================== *)

Module App.

(** A call of [toast.success] or [toast.error] (sonner). *)
Inductive Toast :=
  | toast_success (message : jsstring) (description : option jsstring)
  | toast_error (message : jsstring).

(** *** Article store *)

(** The updater given to [setArticles] in [handleBookmark]:
    [prev.map(article => article.id === articleId
        ? { ...article, isBookmarked: !article.isBookmarked } : article)]. *)
Definition toggleBookmark (articleId : jsstring) (prev : list Article)
  : list Article :=
  (λ article,
     if decide (id article = articleId)
     then with_isBookmarked article (negb (isBookmarked article))
     else article) <$> prev.

(** [articles.find(a => a.id === articleId)] *)
Definition findById (articles : list Article) (articleId : jsstring)
  : option Article :=
  snd <$> list_find (λ a, id a = articleId) articles.

(** The feedback of [handleBookmark]: a toast when the article is found,
    nothing otherwise. *)
Definition bookmarkFeedback (articles : list Article) (articleId : jsstring)
  : option Toast :=
  match findById articles articleId with
  | Some article =>
      Some (toast_success
              (if isBookmarked article
               then lit "Removed from saved articles"
               else lit "Article saved for offline reading")
              (Some (if isBookmarked article
                     then lit "Article removed from your saved collection"
                     else lit "You can now read this article when offline")))
  | None => None
  end.

(** *** Category filter and view composition *)

(** [activeCategory === "home" ? articles
      : articles.filter(article => article.category === activeCategory)] *)
Definition filterByCategory (articles : list Article)
    (activeCategory : jsstring) : list Article :=
  if decide (activeCategory = lit "home")
  then articles
  else filter (λ article, category article = activeCategory) articles.

(** What the list screen shows of a filtered sequence:
    [featuredArticle = filteredArticles[0]] (absent on the empty sequence)
    and [regularArticles = filteredArticles.slice(1)]. *)
Record CategoryView := {
  featured : option Article;
  regular : list Article;
}.

Definition composeCategoryView (filtered : list Article) : CategoryView :=
  {| featured := filtered !! 0%nat;
     regular := drop 1 filtered |}.

(** *** Component state *)

(** The nine [useState] cells of [App]. *)
Record AppState := {
  activeCategory : jsstring;
  selectedArticle : option Article;
  articles : list Article;
  isNavOpen : bool;
  isSearchOpen : bool;
  isSettingsOpen : bool;
  showInstallPrompt : bool;
  showInstallButton : bool;
  isOffline : bool;
}.

Definition initialState : AppState :=
  {| activeCategory := lit "home";
     selectedArticle := None;
     articles := mockArticles;
     isNavOpen := false;
     isSearchOpen := false;
     isSettingsOpen := false;
     showInstallPrompt := false;
     showInstallButton := true;
     isOffline := false |}.

Definition setActiveCategory (c : jsstring) (st : AppState) : AppState :=
  {| activeCategory := c; selectedArticle := selectedArticle st;
     articles := articles st; isNavOpen := isNavOpen st;
     isSearchOpen := isSearchOpen st; isSettingsOpen := isSettingsOpen st;
     showInstallPrompt := showInstallPrompt st;
     showInstallButton := showInstallButton st; isOffline := isOffline st |}.

Definition setSelectedArticle (a : option Article) (st : AppState) : AppState :=
  {| activeCategory := activeCategory st; selectedArticle := a;
     articles := articles st; isNavOpen := isNavOpen st;
     isSearchOpen := isSearchOpen st; isSettingsOpen := isSettingsOpen st;
     showInstallPrompt := showInstallPrompt st;
     showInstallButton := showInstallButton st; isOffline := isOffline st |}.

Definition setArticles (f : list Article → list Article) (st : AppState)
  : AppState :=
  {| activeCategory := activeCategory st; selectedArticle := selectedArticle st;
     articles := f (articles st); isNavOpen := isNavOpen st;
     isSearchOpen := isSearchOpen st; isSettingsOpen := isSettingsOpen st;
     showInstallPrompt := showInstallPrompt st;
     showInstallButton := showInstallButton st; isOffline := isOffline st |}.

Definition setIsNavOpen (b : bool) (st : AppState) : AppState :=
  {| activeCategory := activeCategory st; selectedArticle := selectedArticle st;
     articles := articles st; isNavOpen := b;
     isSearchOpen := isSearchOpen st; isSettingsOpen := isSettingsOpen st;
     showInstallPrompt := showInstallPrompt st;
     showInstallButton := showInstallButton st; isOffline := isOffline st |}.

Definition setIsSearchOpen (b : bool) (st : AppState) : AppState :=
  {| activeCategory := activeCategory st; selectedArticle := selectedArticle st;
     articles := articles st; isNavOpen := isNavOpen st;
     isSearchOpen := b; isSettingsOpen := isSettingsOpen st;
     showInstallPrompt := showInstallPrompt st;
     showInstallButton := showInstallButton st; isOffline := isOffline st |}.

Definition setIsSettingsOpen (b : bool) (st : AppState) : AppState :=
  {| activeCategory := activeCategory st; selectedArticle := selectedArticle st;
     articles := articles st; isNavOpen := isNavOpen st;
     isSearchOpen := isSearchOpen st; isSettingsOpen := b;
     showInstallPrompt := showInstallPrompt st;
     showInstallButton := showInstallButton st; isOffline := isOffline st |}.

Definition setShowInstallPrompt (b : bool) (st : AppState) : AppState :=
  {| activeCategory := activeCategory st; selectedArticle := selectedArticle st;
     articles := articles st; isNavOpen := isNavOpen st;
     isSearchOpen := isSearchOpen st; isSettingsOpen := isSettingsOpen st;
     showInstallPrompt := b;
     showInstallButton := showInstallButton st; isOffline := isOffline st |}.

Definition setShowInstallButton (b : bool) (st : AppState) : AppState :=
  {| activeCategory := activeCategory st; selectedArticle := selectedArticle st;
     articles := articles st; isNavOpen := isNavOpen st;
     isSearchOpen := isSearchOpen st; isSettingsOpen := isSettingsOpen st;
     showInstallPrompt := showInstallPrompt st;
     showInstallButton := b; isOffline := isOffline st |}.

Definition setIsOffline (b : bool) (st : AppState) : AppState :=
  {| activeCategory := activeCategory st; selectedArticle := selectedArticle st;
     articles := articles st; isNavOpen := isNavOpen st;
     isSearchOpen := isSearchOpen st; isSettingsOpen := isSettingsOpen st;
     showInstallPrompt := showInstallPrompt st;
     showInstallButton := showInstallButton st; isOffline := b |}.

(** The values derived in the component body on every render. *)
Definition filteredArticles (st : AppState) : list Article :=
  filterByCategory (articles st) (activeCategory st).

Definition featuredArticle (st : AppState) : option Article :=
  featured (composeCategoryView (filteredArticles st)).

Definition regularArticles (st : AppState) : list Article :=
  regular (composeCategoryView (filteredArticles st)).

(** [articles.filter(article => article.isBookmarked)] *)
Definition savedArticles (st : AppState) : list Article :=
  filter (λ article, isBookmarked article) (articles st).

(** [handleBookmark]: the new state and the toast shown, if any. *)
Definition handleBookmark (articleId : jsstring) (st : AppState)
  : AppState * option Toast :=
  (setArticles (toggleBookmark articleId) st,
   bookmarkFeedback (articles st) articleId).

(** [handleInstall] (its toast left out). *)
Definition handleInstall (st : AppState) : AppState :=
  setShowInstallPrompt false (setShowInstallButton false st).

(** *** Screen selection *)

Inductive Screen := LIST | ARTICLE | OFFLINE.

Global Instance Screen_eq_dec : EqDecision Screen.
Proof. solve_decision. Defined.

(** The order of the [return]s of [App]: [if (isOffline)] first, then
    [if (selectedArticle)], then the list. *)
Definition screen (st : AppState) : Screen :=
  if isOffline st then OFFLINE
  else match selectedArticle st with
       | Some _ => ARTICLE
       | None => LIST
       end.

(** *** Events *)

(** The [id]s of [categories] in [Navigation.tsx]. *)
Definition categories : list jsstring :=
  lit <$> ["home"; "breaking"; "news"; "politics"; "business"; "sport";
           "lifestyle"; "technology"; "opinion"]%string.

(** What can happen to the component: the two browser events, the install
    timer, and one event per callback that the rendered screen wires to a
    state setter. *)
Inductive Event :=
  | WindowOnline                    (* window "online" *)
  | WindowOffline                   (* window "offline" *)
  | InstallTimer                    (* the 5 s timeout of the first effect *)
  | Retry                           (* OfflinePage onRetry *)
  | OfflineBack                     (* OfflinePage onBack *)
  | ArticleClick (article : Article)  (* ArticleCard onClick *)
  | Bookmark (articleId : jsstring)   (* onBookmark *)
  | Share (article : Article)         (* onShare *)
  | PreviewOffline                  (* "Preview Offline Mode" *)
  | ArticleBack                     (* ArticleView onBack *)
  | CategoryClick (c : jsstring)    (* Navigation handleCategoryClick *)
  | NavClose                        (* Navigation overlay *)
  | ViewAllArticles                 (* empty state, "View All Articles" *)
  | MenuClick                       (* Header onMenuClick *)
  | SearchClick                     (* Header onSearchClick *)
  | SettingsClick                   (* Header onSettingsClick *)
  | InstallClick                    (* Header and SettingsDialog onInstallClick *)
  | PromptInstall                   (* InstallPrompt onInstall *)
  | PromptDismiss                   (* InstallPrompt onDismiss *)
  | SearchClose                     (* SearchDialog onClose *)
  | SearchResultClick (query : jsstring) (article : Article)
                                    (* SearchDialog handleArticleClick *)
  | SettingsClose.                  (* SettingsDialog onClose *)

(** The state after the event's handler has run. *)
Definition step (st : AppState) (e : Event) : AppState :=
  match e with
  | WindowOnline | Retry | OfflineBack => setIsOffline false st
  | WindowOffline | PreviewOffline => setIsOffline true st
  | InstallTimer =>
      if showInstallButton st then setShowInstallPrompt true st else st
  | ArticleClick a => setSelectedArticle (Some a) st
  | Bookmark articleId => fst (handleBookmark articleId st)
  | Share _ => st
  | ArticleBack => setSelectedArticle None st
  | CategoryClick c => setIsNavOpen false (setActiveCategory c st)
  | NavClose => setIsNavOpen false st
  | ViewAllArticles => setActiveCategory (lit "home") st
  | MenuClick => setIsNavOpen true st
  | SearchClick => setIsSearchOpen true st
  | SettingsClick => setIsSettingsOpen true st
  | InstallClick | PromptInstall => handleInstall st
  | PromptDismiss => setShowInstallPrompt false st
  | SearchClose => setIsSearchOpen false st
  | SearchResultClick _ a =>
      setIsSearchOpen false (setSelectedArticle (Some a) st)
  | SettingsClose => setIsSettingsOpen false st
  end.

Section Machine.
Context `{Platform}.

(** The events the rendered screen offers. The browser events can come at
    any time, and so may the timer (it is armed again whenever
    [showInstallButton] changes); a callback can only be invoked through an
    element of the screen that is rendered: [OfflinePage] with its compact
    cards (click and bookmark, no share button), or [Header], [ArticleView]
    and the two dialogs, or the list with [Navigation], the cards and
    [InstallPrompt]. *)
Definition available (st : AppState) (e : Event) : Prop :=
  match e with
  | WindowOnline | WindowOffline | InstallTimer => True
  | Retry | OfflineBack => screen st = OFFLINE
  | ArticleClick a =>
      match screen st with
      | OFFLINE => a ∈ savedArticles st
      | LIST => a ∈ filteredArticles st
      | ARTICLE => False
      end
  | Bookmark articleId =>
      match screen st with
      | OFFLINE => articleId ∈ id <$> savedArticles st
      | LIST => articleId ∈ id <$> filteredArticles st
      | ARTICLE => id <$> selectedArticle st = Some articleId
      end
  | Share a =>
      match screen st with
      | OFFLINE => False
      | LIST => a ∈ filteredArticles st
      | ARTICLE => selectedArticle st = Some a
      end
  | PreviewOffline => screen st = LIST ∧ regularArticles st ≠ []
  | ArticleBack => screen st = ARTICLE
  | CategoryClick c => screen st = LIST ∧ c ∈ categories
  | NavClose => screen st = LIST ∧ isNavOpen st = true
  | ViewAllArticles => screen st = LIST ∧ filteredArticles st = []
  | MenuClick | SearchClick | SettingsClick => screen st ≠ OFFLINE
  | InstallClick => screen st ≠ OFFLINE ∧ showInstallButton st = true
  | PromptInstall | PromptDismiss =>
      screen st = LIST ∧ showInstallPrompt st = true
  | SearchClose => screen st ≠ OFFLINE ∧ isSearchOpen st = true
  | SearchResultClick query a =>
      screen st ≠ OFFLINE ∧ isSearchOpen st = true ∧
      a ∈ SearchDialog.filteredArticles (articles st) query
  | SettingsClose => screen st ≠ OFFLINE ∧ isSettingsOpen st = true
  end.

Global Instance available_dec (st : AppState) (e : Event) :
  Decision (available st e).
Proof. destruct e; simpl; try destruct (screen st); apply _. Defined.

(** The states the component can be in. *)
Inductive reachable : AppState → Prop :=
  | reachable_init : reachable initialState
  | reachable_step st e :
      reachable st → available st e → reachable (step st e).
End Machine.
End App.

(* ===================================================================== *)
(** ** The contact-form function ([netlify/functions/contact-form.js]) *)
(* ===================================================================== *)

Module ContactForm.

(** *** Regular expressions over code units *)

(** The fragment of the pattern language that [emailRegex] is written in;
    with the anchors [^] and [$] and no flag, [test] asks whether the whole
    string matches. *)
Inductive regex :=
  | Empty
  | Eps
  | Class (p : code_unit → bool)
  | Seq (r1 r2 : regex)
  | Alt (r1 r2 : regex)
  | Star (r : regex).

Definition Plus (r : regex) : regex := Seq r (Star r).
Definition Char (c : code_unit) : regex := Class (λ d, d =? c).

(** The strings a pattern denotes. *)
Inductive matches : regex → jsstring → Prop :=
  | matches_eps : matches Eps []
  | matches_class p c : p c = true → matches (Class p) [c]
  | matches_seq r1 r2 s1 s2 :
      matches r1 s1 → matches r2 s2 → matches (Seq r1 r2) (s1 ++ s2)
  | matches_alt_l r1 r2 s : matches r1 s → matches (Alt r1 r2) s
  | matches_alt_r r1 r2 s : matches r2 s → matches (Alt r1 r2) s
  | matches_star_nil r : matches (Star r) []
  | matches_star_cons r s1 s2 :
      matches r s1 → matches (Star r) s2 → matches (Star r) (s1 ++ s2).

Fixpoint nullable (r : regex) : bool :=
  match r with
  | Empty => false
  | Eps => true
  | Class _ => false
  | Seq r1 r2 => nullable r1 && nullable r2
  | Alt r1 r2 => nullable r1 || nullable r2
  | Star _ => true
  end.

(** What is left of [r] after reading [c]. *)
Fixpoint derivative (c : code_unit) (r : regex) : regex :=
  match r with
  | Empty => Empty
  | Eps => Empty
  | Class p => if p c then Eps else Empty
  | Seq r1 r2 =>
      if nullable r1
      then Alt (Seq (derivative c r1) r2) (derivative c r2)
      else Seq (derivative c r1) r2
  | Alt r1 r2 => Alt (derivative c r1) (derivative c r2)
  | Star r1 => Seq (derivative c r1) (Star r1)
  end.

(** [r.test(s)] for an anchored pattern [r]. *)
Fixpoint regex_test (r : regex) (s : jsstring) : bool :=
  match s with
  | [] => nullable r
  | c :: s' => regex_test (derivative c r) s'
  end.

(** The class [[^\s@]]. *)
Definition notSpaceNorAt (c : code_unit) : bool :=
  negb (isWhiteSpace c || (c =? 0x40)).

(** [const emailRegex = /^[^\s@]+@[^\s@]+\.[^\s@]+$/] *)
Definition emailRegex : regex :=
  Seq (Plus (Class notSpaceNorAt))
   (Seq (Char 0x40)
     (Seq (Plus (Class notSpaceNorAt))
       (Seq (Char 0x2E)
         (Plus (Class notSpaceNorAt))))).

Section Handler.
Context `{Platform}.

(** *** JSON values *)

(** The values [JSON.parse] returns. An object is kept as the members of
    its text, in order. *)
Inductive JSON :=
  | JNull
  | JBool (b : bool)
  | JNumber (x : number)
  | JString (s : jsstring)
  | JArray (elements : list JSON)
  | JObject (members : list (jsstring * JSON)).

(** The value of the member [key] of a parsed object: of two members with
    the same name the later one wins. *)
Fixpoint member (key : jsstring) (members : list (jsstring * JSON))
  : option JSON :=
  match members with
  | [] => None
  | (k, v) :: rest =>
      match member key rest with
      | Some v' => Some v'
      | None => if decide (k = key) then Some v else None
      end
  end.

(** What the destructuring pattern [{ name, email, ... } = value] binds to
    [key], for [key] one of [name], [email], [subject], [message],
    [category]: the member of an object; [undefined] ([None]) for an array,
    a string, a number or a boolean, none of which has a property of such a
    name, own or inherited. *)
Definition Get (value : JSON) (key : jsstring) : option JSON :=
  match value with
  | JObject members => member key members
  | _ => None
  end.

(** ToBoolean; [None] is [undefined]. *)
Definition ToBoolean (v : option JSON) : bool :=
  match v with
  | None => false
  | Some JNull => false
  | Some (JBool b) => b
  | Some (JNumber x) => Number_ToBoolean x
  | Some (JString s) => truthy_string s
  | Some (JArray _) => true
  | Some (JObject _) => true
  end.

(** ToString on a parsed value; [None] is a thrown [TypeError].
    An array is joined with commas, [null] elements printing as the empty
    string. A parsed object inherits [Object.prototype.toString] and prints
    as [[object Object]], unless it has a member named [toString]: that
    member is not callable, and [valueOf] does not return a primitive
    either, so the conversion throws. *)
Fixpoint ToString (v : JSON) : option jsstring :=
  match v with
  | JNull => Some (lit "null")
  | JBool b => Some (if b then lit "true" else lit "false")
  | JNumber x => Some (Number_ToString x)
  | JString s => Some s
  | JArray elements =>
      (fix join (l : list JSON) : option jsstring :=
         match l with
         | [] => Some []
         | e :: l' =>
             match (match e with JNull => Some [] | _ => ToString e end) with
             | None => None
             | Some s =>
                 match l' with
                 | [] => Some s
                 | _ :: _ =>
                     match join l' with
                     | None => None
                     | Some r => Some (s ++ lit "," ++ r)
                     end
                 end
             end
         end) elements
  | JObject members =>
      match member (lit "toString") members with
      | Some _ => None
      | None => Some (lit "[object Object]")
      end
  end.

(** *** Requests and responses *)

(** [event.body], by what [JSON.parse] makes of it:
    - no body: [event.body] is [null] (for which [JSON.parse] returns
      [null]), [undefined] or the empty string (for which it throws);
    - a non-empty text that is not JSON: [JSON.parse] throws a SyntaxError;
    - a JSON text, with the value [JSON.parse] returns. *)
Inductive RequestBody :=
  | NoBody
  | Malformed
  | JSONText (value : JSON).

(** The part of the Netlify event that the handler reads. *)
Record HandlerEvent := {
  httpMethod : jsstring;
  eventBody : RequestBody;
}.

(** The clock readings that reach the response: [Date.now()] and
    [new Date().toISOString()]. *)
Record Clock := {
  Date_now : N;
  Date_toISOString : jsstring;
}.

(** A response body: the empty string, or [JSON.stringify] of a value. *)
Inductive Body :=
  | body_empty
  | body_stringify (value : JSON).

Record Response := {
  statusCode : N;
  headers : list (jsstring * jsstring);
  body : Body;
}.

Definition corsHeaders : list (jsstring * jsstring) :=
  [ (lit "Access-Control-Allow-Origin", lit "*");
    (lit "Access-Control-Allow-Headers", lit "Content-Type");
    (lit "Access-Control-Allow-Methods", lit "POST, OPTIONS");
    (lit "Content-Type", lit "application/json") ].

Definition respond (status : N) (b : Body) : Response :=
  {| statusCode := status; headers := corsHeaders; body := b |}.

Definition methodNotAllowed : Response :=
  respond 405 (body_stringify (JObject
    [ (lit "error", JString (lit "Method not allowed"));
      (lit "message",
       JString (lit "This endpoint only accepts POST requests")) ])).

Definition missingRequiredFields : Response :=
  respond 400 (body_stringify (JObject
    [ (lit "error", JString (lit "Missing required fields"));
      (lit "required",
       JArray [JString (lit "name"); JString (lit "email");
               JString (lit "message")]) ])).

Definition invalidEmailAddress : Response :=
  respond 400 (body_stringify (JObject
    [ (lit "error", JString (lit "Invalid email address")) ])).

Definition unableToProcess : Response :=
  respond 500 (body_stringify (JObject
    [ (lit "error", JString (lit "Unable to process your message"));
      (lit "message",
       JString (lit "Please try again later or contact us directly.")) ])).

(** [`contact_${Date.now()}`] *)
Definition submissionId (clock : Clock) : jsstring :=
  lit "contact_" ++ decimal (Date_now clock).

Definition accepted (clock : Clock) : Response :=
  respond 200 (body_stringify (JObject
    [ (lit "success", JBool true);
      (lit "message",
       JString (lit "Thank you for your message! We'll get back to you soon."));
      (lit "submissionId", JString (submissionId clock));
      (lit "timestamp", JString (Date_toISOString clock)) ])).

(** *** The handler *)

(** The body of the [try] block; [None] is an exception, which the [catch]
    clause turns into the 500 response: the SyntaxError of [JSON.parse], the
    TypeError of destructuring [null], the TypeError of a failed conversion
    to string. The [console.log] call has no effect on the response and
    cannot throw on parsed values. *)
Definition tryBlock (clock : Clock) (event : HandlerEvent) : option Response :=
  match eventBody event with
  | NoBody => None
  | Malformed => None
  | JSONText JNull => None
  | JSONText value =>
      let name := Get value (lit "name") in
      let email := Get value (lit "email") in
      let message := Get value (lit "message") in
      if negb (ToBoolean name) || negb (ToBoolean email)
         || negb (ToBoolean message)
      then Some missingRequiredFields
      else
        match email ≫= ToString with
        | None => None
        | Some text =>
            if negb (regex_test emailRegex text)
            then Some invalidEmailAddress
            else Some (accepted clock)
        end
  end.

(** [exports.handler] *)
Definition handler (clock : Clock) (event : HandlerEvent) : Response :=
  if decide (httpMethod event = lit "OPTIONS")
  then respond 200 body_empty
  else if decide (httpMethod event ≠ lit "POST")
  then methodNotAllowed
  else match tryBlock clock event with
       | Some response => response
       | None => unableToProcess
       end.
(** *** Reading requests and responses *)

(** The field [key] of the request: the value the handler binds to it, and
    [None] when the body has no such member, is not JSON, or is missing. *)
Definition requestField (event : HandlerEvent) (key : jsstring) : option JSON :=
  match eventBody event with
  | NoBody | Malformed => None
  | JSONText value => Get value key
  end.

(** The member [key] of the object a response body is the text of. *)
Definition bodyMember (response : Response) (key : jsstring) : option JSON :=
  match body response with
  | body_stringify (JObject members) => member key members
  | _ => None
  end.
End Handler.
End ContactForm.

(* ===================================================================== *)
(** ** Further components *)
(* ===================================================================== *)

(** Two articles that agree on every field but [isBookmarked]. *)
Definition same_but_isBookmarked (a b : Article) : Prop :=
  id a = id b ∧ title a = title b ∧ excerpt a = excerpt b ∧
  content a = content b ∧ imageUrl a = imageUrl b ∧
  category a = category b ∧ author a = author b ∧
  publishedAt a = publishedAt b ∧ readTime a = readTime b.

(** *** [components/Navigation.tsx] *)

Module Navigation.

Record Category := {
  id : jsstring;
  label : jsstring;
  color : jsstring;
}.

(** [const categories = [...]] *)
Definition categories : list Category := [
  {| id := lit "home"; label := lit "Home"; color := lit "default" |};
  {| id := lit "breaking"; label := lit "Breaking";
     color := lit "destructive" |};
  {| id := lit "news"; label := lit "News"; color := lit "default" |};
  {| id := lit "politics"; label := lit "Politics"; color := lit "default" |};
  {| id := lit "business"; label := lit "Business"; color := lit "default" |};
  {| id := lit "sport"; label := lit "Sport"; color := lit "default" |};
  {| id := lit "lifestyle"; label := lit "Lifestyle";
     color := lit "default" |};
  {| id := lit "technology"; label := lit "Technology";
     color := lit "default" |};
  {| id := lit "opinion"; label := lit "Opinion"; color := lit "default" |}
]%string.

(** [variant={activeCategory === category.id ? "default" : "secondary"}] *)
Definition badgeVariant (activeCategory : jsstring) (category : Category)
  : jsstring :=
  if decide (activeCategory = id category)
  then lit "default" else lit "secondary".

(** [category.color === "destructive" && activeCategory === category.id]:
    whether the desktop badge gets the destructive classes. *)
Definition badgeDestructive (activeCategory : jsstring) (category : Category)
  : bool :=
  bool_decide (color category = lit "destructive") &&
  bool_decide (activeCategory = id category).
End Navigation.

(** *** [formatDate] of [components/ArticleCard.tsx] *)

Module ArticleCard.

(** What [formatDate] returns: ["Just now"], [`${diffInHours}h ago`], or
    the text of [date.toLocaleDateString("en-GB", ...)], which is left to
    the platform ([None] is the invalid date). *)
Inductive DateLabel :=
  | JustNow
  | HoursAgo (diffInHours : Z)
  | LocaleDateString (time : option Z).

(** [formatDate], on the time value of [new Date()] and the time value of
    [new Date(dateString)], both in milliseconds; [None] is the [NaN] of a
    date string that does not parse. With [NaN] both comparisons are false.
    Time values are integers below 2^53 in magnitude, for which
    [Math.floor] of the quotient is the integer quotient. *)
Definition formatDate (now : Z) (date : option Z) : DateLabel :=
  match date with
  | None => LocaleDateString None
  | Some time =>
      let diffInHours := ((now - time) / (1000 * 60 * 60))%Z in
      if (diffInHours <? 1)%Z then JustNow
      else if (diffInHours <? 24)%Z then HoursAgo diffInHours
      else LocaleDateString (Some time)
  end.
End ArticleCard.

(** *** Notification preferences of [components/SettingsDialog.tsx] *)

Module SettingsDialog.

(** The [notifications] object: its properties in insertion order. *)
Abbreviation Notifications := (list (jsstring * bool)) (only parsing).

(** The initial value of the [notifications] state. *)
Definition initialNotifications : Notifications :=
  [ (lit "breaking", true); (lit "politics", false); (lit "business", true);
    (lit "sport", false); (lit "lifestyle", false);
    (lit "technology", true) ].

(** [{ ...prev, [category]: enabled }]: a property that exists keeps its
    place and takes the new value, a new one comes last. (The keys are
    category names; none is an array index, which an object would list
    first.) *)
Fixpoint handleNotificationChange (category : jsstring) (enabled : bool)
    (prev : Notifications) : Notifications :=
  match prev with
  | [] => [(category, enabled)]
  | (k, v) :: rest =>
      if decide (k = category)
      then (k, enabled) :: rest
      else (k, v) :: handleNotificationChange category enabled rest
  end.

(** [notifications[category]] *)
Fixpoint getNotification (notifications : Notifications) (category : jsstring)
  : option bool :=
  match notifications with
  | [] => None
  | (k, v) :: rest =>
      if decide (k = category) then Some v else getNotification rest category
  end.

(** [Object.entries(notifications).filter(([_, enabled]) => enabled)] *)
Definition enabledNotifications (notifications : Notifications)
  : Notifications :=
  filter (λ entry, snd entry = true) notifications.
End SettingsDialog.

(** *** Sharing ([handleShare] of [App.tsx] and of [ArticleView.tsx]) *)

Module Share.

(** What a promise does. *)
Inductive Settlement := Resolves | Rejects.

(** The two capabilities [handleShare] probes: [navigator.share] and
    [navigator.clipboard], [None] when [navigator] has no such property,
    and otherwise what the promise of [share(...)], of [writeText(...)],
    does. *)
Record Navigator := {
  share : option Settlement;
  clipboard : option Settlement;
}.

(** What the user gets: a toast, nothing, or nothing with a rejection that
    no handler receives. *)
Inductive Feedback :=
  | Shown (toast : App.Toast)
  | Nothing
  | UnhandledRejection.

(** [handleShare] of [App.tsx]. In the [catch] callback of
    [navigator.share] the clipboard is used without a test: without a
    clipboard, [navigator.clipboard.writeText] throws a TypeError inside the
    callback and the chain ends rejected. *)
Definition handleShare (navigator : Navigator) : Feedback :=
  match share navigator with
  | Some Resolves => Nothing
  | Some Rejects =>
      match clipboard navigator with
      | Some Resolves =>
          Shown (App.toast_success (lit "Link copied to clipboard!") None)
      | Some Rejects =>
          Shown (App.toast_error
            (lit "Unable to share article. Please copy the URL manually."))
      | None => UnhandledRejection
      end
  | None =>
      match clipboard navigator with
      | Some Resolves =>
          Shown (App.toast_success (lit "Link copied to clipboard!") None)
      | Some Rejects =>
          Shown (App.toast_error
            (lit "Unable to copy link. Please copy the URL manually."))
      | None =>
          Shown (App.toast_error
            (lit "Sharing not supported. Please copy the URL from your browser."))
      end
  end.

(** [handleShare] of [ArticleView.tsx], with [onShare] the function above:
    the promise of [navigator.share] is dropped. *)
Definition articleViewHandleShare (navigator : Navigator) : Feedback :=
  match share navigator with
  | Some Resolves => Nothing
  | Some Rejects => UnhandledRejection
  | None => handleShare navigator
  end.
End Share.

(** *** The other two functions ([netlify/functions]) *)

Module Functions.
Import ContactForm.
Section Handlers.
Context `{Platform}.

(** The [message] of the two errors the handlers can catch; the texts are
    the engine's. *)
Record ErrorMessages := {
  syntaxErrorMessage : jsstring;
  typeErrorMessage : jsstring;
}.

(** [const body = event.body ? JSON.parse(event.body) : {}]; [inr] is the
    message of the SyntaxError thrown. *)
Definition guardedBody (errors : ErrorMessages) (b : RequestBody)
  : JSON + jsstring :=
  match b with
  | NoBody => inl (JObject [])
  | Malformed => inr (syntaxErrorMessage errors)
  | JSONText value => inl value
  end.

Definition internalServerError (allowMethods message : jsstring) : Response :=
  {| statusCode := 500;
     headers :=
       [ (lit "Access-Control-Allow-Origin", lit "*");
         (lit "Access-Control-Allow-Headers", lit "Content-Type");
         (lit "Access-Control-Allow-Methods", allowMethods);
         (lit "Content-Type", lit "application/json") ];
     body := body_stringify (JObject
       [ (lit "error", JString (lit "Internal server error"));
         (lit "message", JString message) ]) |}.

(** **** [push-notifications.js] *)

Definition pushMethods : jsstring := lit "GET, POST, PUT, DELETE, OPTIONS".

Definition pushRespond (status : N) (b : Body) : Response :=
  {| statusCode := status;
     headers :=
       [ (lit "Access-Control-Allow-Origin", lit "*");
         (lit "Access-Control-Allow-Headers", lit "Content-Type");
         (lit "Access-Control-Allow-Methods", pushMethods);
         (lit "Content-Type", lit "application/json") ];
     body := b |}.

Definition handleSubscription (clock : Clock) : Response :=
  pushRespond 200 (body_stringify (JObject
    [ (lit "success", JBool true);
      (lit "message", JString (lit "Subscription registered successfully"));
      (lit "subscriptionId",
       JString (lit "sub_" ++ decimal (Date_now clock))) ])).

Definition handleUnsubscription : Response :=
  pushRespond 200 (body_stringify (JObject
    [ (lit "success", JBool true);
      (lit "message", JString (lit "Successfully unsubscribed")) ])).

(** [scheduledFor || new Date().toISOString()], with [scheduledFor = null]
    the default of the destructuring. *)
Definition handleSendNotification (clock : Clock) (body : JSON) : Response :=
  pushRespond 200 (body_stringify (JObject
    [ (lit "success", JBool true);
      (lit "message", JString (lit "Notification queued for delivery"));
      (lit "notificationId",
       JString (lit "notif_" ++ decimal (Date_now clock)));
      (lit "scheduledFor",
       match Get body (lit "scheduledFor") with
       | Some scheduledFor =>
           if ToBoolean (Some scheduledFor) then scheduledFor
           else JString (Date_toISOString clock)
       | None => JString (Date_toISOString clock)
       end) ])).

Definition handleTestNotification (clock : Clock) : Response :=
  pushRespond 200 (body_stringify (JObject
    [ (lit "success", JBool true);
      (lit "message", JString (lit "Test notification sent"));
      (lit "testId", JString (lit "test_" ++ decimal (Date_now clock))) ])).

Definition invalidAction : Response :=
  pushRespond 400 (body_stringify (JObject
    [ (lit "error", JString (lit "Invalid action"));
      (lit "validActions",
       JArray [JString (lit "subscribe"); JString (lit "unsubscribe");
               JString (lit "send"); JString (lit "test")]) ])).

(** [exports.handler] of [push-notifications.js]. The [switch] compares
    [action] with [===]: only a string selects a case. *)
Definition pushHandler (errors : ErrorMessages) (clock : Clock)
    (event : HandlerEvent) : Response :=
  if decide (httpMethod event = lit "OPTIONS")
  then pushRespond 200 body_empty
  else
    match guardedBody errors (eventBody event) with
    | inr message => internalServerError pushMethods message
    | inl JNull => internalServerError pushMethods (typeErrorMessage errors)
    | inl body =>
        match Get body (lit "action") with
        | Some (JString action) =>
            if decide (action = lit "subscribe")
            then handleSubscription clock
            else if decide (action = lit "unsubscribe")
            then handleUnsubscription
            else if decide (action = lit "send")
            then handleSendNotification clock body
            else if decide (action = lit "test")
            then handleTestNotification clock
            else invalidAction
        | _ => invalidAction
        end
    end.

(** **** [example-api.js] *)

(** The event of [example-api.js]: the handler also reads
    [queryStringParameters], [null] ([None]) or an object of strings. *)
Record ApiEvent := {
  apiMethod : jsstring;
  queryStringParameters : option (list (jsstring * jsstring));
  apiBody : RequestBody;
}.

(** [params[key]] on an object of strings. *)
Fixpoint queryParameter (key : jsstring) (params : list (jsstring * jsstring))
  : option jsstring :=
  match params with
  | [] => None
  | (k, v) :: rest =>
      match queryParameter key rest with
      | Some v' => Some v'
      | None => if decide (k = key) then Some v else None
      end
  end.

Definition apiMethods : jsstring := lit "GET, POST, OPTIONS".

Definition apiRespond (status : N) (b : Body) : Response :=
  {| statusCode := status;
     headers :=
       [ (lit "Access-Control-Allow-Origin", lit "*");
         (lit "Access-Control-Allow-Headers", lit "Content-Type");
         (lit "Access-Control-Allow-Methods", apiMethods);
         (lit "Content-Type", lit "application/json") ];
     body := b |}.

(** [exports.handler] of [example-api.js]. The parsed body is not used. *)
Definition apiHandler (errors : ErrorMessages) (clock : Clock)
    (event : ApiEvent) : Response :=
  if decide (apiMethod event = lit "OPTIONS")
  then apiRespond 200 body_empty
  else
    let name :=
      match queryStringParameters event with
      | Some params => queryParameter (lit "name") params
      | None => None
      end in
    match guardedBody errors (apiBody event) with
    | inr message => internalServerError apiMethods message
    | inl _ =>
        apiRespond 200 (body_stringify (JObject
          [ (lit "message", JString (lit "NovaNews API endpoint working"));
            (lit "method", JString (apiMethod event));
            (lit "name",
             JString (match name with
                      | Some (c :: s) => c :: s
                      | _ => lit "Anonymous"
                      end));
            (lit "timestamp", JString (Date_toISOString clock)) ]))
    end.
End Handlers.
End Functions.

Local Close Scope N_scope.

(* ===================================================================== *)
(** ** Facts about strings *)
(* ===================================================================== *)

Lemma startsWith_spec (s t : jsstring) :
  startsWith s t = true ↔ ∃ post, s = t ++ post.
Proof.
  revert s. induction t as [|c t IH]; intros s; simpl.
  - split; [eauto|done].
  - destruct s as [|d s].
    + split; [done|]. intros [post Hpost]. discriminate Hpost.
    + rewrite andb_true_iff, N.eqb_eq, IH. split.
      * intros [-> [post ->]]. by exists post.
      * intros [post Hpost]. injection Hpost as -> ->. eauto.
Qed.

Lemma includes_spec (s t : jsstring) :
  includes s t = true ↔ substring_of t s.
Proof.
  unfold substring_of. induction s as [|d s IH]; simpl.
  - rewrite orb_false_r, startsWith_spec. split.
    + intros [post Hpost]. by exists [], post.
    + intros [pre [post Hs]]. destruct pre; [by exists post|discriminate Hs].
  - rewrite orb_true_iff, startsWith_spec, IH. split.
    + intros [[post Hpost] | [pre [post Hs]]].
      * by exists [], post.
      * exists (d :: pre), post. by rewrite Hs.
    + intros [pre [post Hs]]. destruct pre as [|d' pre]; simpl in Hs.
      * left. by exists post.
      * right. injection Hs as -> ->. by exists pre, post.
Qed.

Lemma trimStart_whitespace_only (s : jsstring) :
  whitespace_only s → trimStart s = [].
Proof.
  induction 1 as [|c s Hc _ IH]; simpl; [done|]. by rewrite Hc.
Qed.

Lemma trimStart_nil_inv (s : jsstring) :
  trimStart s = [] → whitespace_only s.
Proof.
  induction s as [|c s IH]; simpl; [by constructor|].
  destruct (isWhiteSpace c) eqn:Hc; [|done].
  intros Hs. constructor; [done | by apply IH].
Qed.

(** [trim] leaves nothing exactly when the string is empty or white space
    only. *)
Lemma trim_nil_iff (s : jsstring) : trim s = [] ↔ whitespace_only s.
Proof.
  unfold trim, trimEnd. split.
  - intros Hs. apply (f_equal reverse) in Hs.
    rewrite reverse_involutive, reverse_nil in Hs.
    apply trimStart_nil_inv in Hs.
    apply Forall_reverse in Hs. rewrite reverse_involutive in Hs.
    destruct (decide (trimStart s = [])) as [Hnil|Hne].
    + by apply trimStart_nil_inv.
    + clear -Hs Hne. induction s as [|c s IH]; simpl in *; [done|].
      destruct (isWhiteSpace c) eqn:Hc.
      * constructor; [done | by apply IH].
      * done.
  - intros Hs. by rewrite (trimStart_whitespace_only s Hs).
Qed.

Lemma truthy_trim_false (q : jsstring) :
  truthy_string (trim q) = false ↔ whitespace_only q.
Proof.
  rewrite <-trim_nil_iff. by destruct (trim q).
Qed.

(* ===================================================================== *)
(** ** Search *)
(* ===================================================================== *)

Section SearchFacts.
Context `{Platform}.

Lemma matchesQuery_spec (q : jsstring) (a : Article) :
  SearchDialog.matchesQuery q a = true ↔
  SearchDialog.occurs_ignoring_case q (title a) ∨
  SearchDialog.occurs_ignoring_case q (excerpt a) ∨
  SearchDialog.occurs_ignoring_case q (category a).
Proof.
  unfold SearchDialog.matchesQuery, SearchDialog.occurs_ignoring_case.
  rewrite !orb_true_iff, !includes_spec. tauto.
Qed.

Lemma elem_of_allMatches (A : list Article) (q : jsstring) (a : Article) :
  a ∈ SearchDialog.allMatches A q ↔
  a ∈ A ∧ (SearchDialog.occurs_ignoring_case q (title a) ∨
           SearchDialog.occurs_ignoring_case q (excerpt a) ∨
           SearchDialog.occurs_ignoring_case q (category a)).
Proof.
  unfold SearchDialog.allMatches.
  rewrite list_elem_of_filter, Is_true_true, matchesQuery_spec. tauto.
Qed.

Lemma filteredArticles_active (A : list Article) (q : jsstring) :
  trim q ≠ [] →
  SearchDialog.filteredArticles A q = take 8 (SearchDialog.allMatches A q).
Proof.
  intros Hq. unfold SearchDialog.filteredArticles, SearchDialog.allMatches.
  by destruct (trim q).
Qed.

(** C1. For a query that is not empty after trimming, every article that
    search returns is an article of the collection in whose title, excerpt
    or category the query occurs, case ignored; at most eight articles are
    returned; and they are the first ones of the full match set, which is
    made, in collection order, of exactly the articles of the collection in
    which the query occurs. *)
Theorem search_sound_capped_prefix (A : list Article) (q : jsstring) :
  trim q ≠ [] →
  (∀ a, a ∈ SearchDialog.filteredArticles A q →
     a ∈ A ∧ (SearchDialog.occurs_ignoring_case q (title a) ∨
              SearchDialog.occurs_ignoring_case q (excerpt a) ∨
              SearchDialog.occurs_ignoring_case q (category a))) ∧
  length (SearchDialog.filteredArticles A q) ≤ 8 ∧
  SearchDialog.filteredArticles A q `prefix_of` SearchDialog.allMatches A q ∧
  SearchDialog.filteredArticles A q = take 8 (SearchDialog.allMatches A q) ∧
  SearchDialog.allMatches A q `sublist_of` A ∧
  (∀ a, a ∈ SearchDialog.allMatches A q ↔
     a ∈ A ∧ (SearchDialog.occurs_ignoring_case q (title a) ∨
              SearchDialog.occurs_ignoring_case q (excerpt a) ∨
              SearchDialog.occurs_ignoring_case q (category a))).
Proof.
  intros Hq. rewrite (filteredArticles_active A q Hq). split_and!.
  - intros a Ha. apply elem_of_allMatches.
    by apply (sublist_subseteq _ _ (sublist_take _ 8)).
  - rewrite length_take. lia.
  - apply prefix_take.
  - done.
  - apply sublist_filter.
  - apply elem_of_allMatches.
Qed.

(** C7. For a query that is empty or white space only, search returns the
    empty sequence, whatever the collection. *)
Theorem search_inert_on_blank_query (A : list Article) (q : jsstring) :
  whitespace_only q → SearchDialog.filteredArticles A q = [].
Proof.
  intros Hq. unfold SearchDialog.filteredArticles.
  by rewrite (proj2 (truthy_trim_false q) Hq).
Qed.

Lemma matchesQuery_same_but_author_content (q : jsstring) (a b : Article) :
  same_but_author_content a b →
  SearchDialog.matchesQuery q a = SearchDialog.matchesQuery q b.
Proof.
  intros (_ & Ht & He & _ & Hc & _). unfold SearchDialog.matchesQuery.
  by rewrite Ht, He, Hc.
Qed.

(** C10. On two versions of a collection whose articles differ, position by
    position, in [author] and [content] only, search selects the articles
    at the same positions: the ids of the results are the same, in the same
    order, for every query. *)
Theorem search_ignores_author_and_content
    (A B : list Article) (q : jsstring) :
  Forall2 same_but_author_content A B →
  id <$> SearchDialog.filteredArticles A q =
    id <$> SearchDialog.filteredArticles B q ∧
  Forall2 same_but_author_content
    (SearchDialog.filteredArticles A q) (SearchDialog.filteredArticles B q).
Proof.
  intros HAB.
  assert (Forall2 same_but_author_content
            (SearchDialog.filteredArticles A q)
            (SearchDialog.filteredArticles B q)) as Hres.
  { unfold SearchDialog.filteredArticles.
    destruct (truthy_string (trim q)); [|constructor].
    apply Forall2_take. apply Forall2_filter; [|done].
    intros a b Hab. by rewrite (matchesQuery_same_but_author_content q a b). }
  split; [|done].
  induction Hres as [|a b l k Hab _ IH]; [done|].
  rewrite !fmap_cons. f_equal; [apply Hab | apply IH].
Qed.
End SearchFacts.

Lemma search_sound_capped_prefix_witness :
  trim (lit "rugby") ≠ [] ∧
  length (SearchDialog.filteredArticles (H:=ascii_platform)
            mockArticles (lit "rugby")) ≤ 8 ∧
  SearchDialog.filteredArticles (H:=ascii_platform) mockArticles (lit "rugby")
    `prefix_of`
  SearchDialog.allMatches (H:=ascii_platform) mockArticles (lit "rugby").
Proof.
  split; [by vm_compute|].
  pose proof (search_sound_capped_prefix (H:=ascii_platform)
                mockArticles (lit "rugby")) as Hthm.
  destruct Hthm as (_ & Hlen & Hpre & _); [by vm_compute|].
  by split.
Defined.

Lemma search_inert_on_blank_query_witness :
  whitespace_only (lit "   ") ∧
  SearchDialog.filteredArticles (H:=ascii_platform) mockArticles (lit "   ")
    = [].
Proof.
  assert (whitespace_only (lit "   ")) as Hq.
  { repeat constructor. }
  split; [exact Hq|].
  exact (search_inert_on_blank_query (H:=ascii_platform)
           mockArticles (lit "   ") Hq).
Defined.

Lemma same_but_author_content_with (a : Article) (author' content' : jsstring) :
  same_but_author_content a (with_author_content a author' content').
Proof. by repeat split. Qed.

Lemma search_ignores_author_and_content_witness :
  let B := (λ a, with_author_content a (lit "Rugby Desk") (lit "rugby"))
             <$> mockArticles in
  Forall2 same_but_author_content mockArticles B ∧
  id <$> SearchDialog.filteredArticles (H:=ascii_platform)
           mockArticles (lit "rugby") =
    id <$> SearchDialog.filteredArticles (H:=ascii_platform) B (lit "rugby").
Proof.
  intros B.
  assert (Forall2 same_but_author_content mockArticles B) as HB.
  { apply Forall2_fmap_r, Forall_Forall2_diag, Forall_forall.
    intros a _. apply same_but_author_content_with. }
  split; [exact HB|].
  exact (proj1 (search_ignores_author_and_content (H:=ascii_platform)
                  mockArticles B (lit "rugby") HB)).
Defined.

(* ===================================================================== *)
(** ** Article store *)
(* ===================================================================== *)

Lemma AppState_eta (st : App.AppState) :
  {| App.activeCategory := App.activeCategory st;
     App.selectedArticle := App.selectedArticle st;
     App.articles := App.articles st;
     App.isNavOpen := App.isNavOpen st;
     App.isSearchOpen := App.isSearchOpen st;
     App.isSettingsOpen := App.isSettingsOpen st;
     App.showInstallPrompt := App.showInstallPrompt st;
     App.showInstallButton := App.showInstallButton st;
     App.isOffline := App.isOffline st |} = st.
Proof. by destruct st. Qed.

Lemma toggleBookmark_twice (articleId : jsstring) (A : list Article) :
  App.toggleBookmark articleId (App.toggleBookmark articleId A) = A.
Proof.
  unfold App.toggleBookmark. rewrite <-list_fmap_compose.
  rewrite <-(list_fmap_id A) at 2. apply list_fmap_ext.
  intros _ a _. simpl. destruct (decide (id a = articleId)) as [Hid|Hid].
  - simpl. rewrite decide_True by done.
    destruct a as [? ? ? ? ? ? ? ? ? b]. simpl. by rewrite negb_involutive.
  - by rewrite decide_False.
Qed.

Lemma toggleBookmark_miss (articleId : jsstring) (A : list Article) :
  (∀ a, a ∈ A → id a ≠ articleId) → App.toggleBookmark articleId A = A.
Proof.
  intros Hmiss. unfold App.toggleBookmark.
  rewrite <-(list_fmap_id A) at 2. apply list_fmap_ext.
  intros i a Ha. rewrite decide_False; [done|].
  apply Hmiss. by apply list_elem_of_lookup_2 in Ha.
Qed.

Lemma bookmarkFeedback_miss (articleId : jsstring) (A : list Article) :
  (∀ a, a ∈ A → id a ≠ articleId) → App.bookmarkFeedback A articleId = None.
Proof.
  intros Hmiss. unfold App.bookmarkFeedback, App.findById.
  rewrite (proj2 (list_find_None _ A)); [done|].
  by apply Forall_forall.
Qed.

(** C3. Toggling the bookmark of the same id twice gives back the
    collection, hence every article's [isBookmarked]; toggling an id that no
    article has leaves the collection as it is, and [handleBookmark] then
    shows no toast and raises nothing. The same holds of the component
    state through [handleBookmark]. *)
Theorem toggleBookmark_self_inverse_and_silent_miss
    (A : list Article) (articleId : jsstring) :
  App.toggleBookmark articleId (App.toggleBookmark articleId A) = A ∧
  (∀ st, fst (App.handleBookmark articleId
                (fst (App.handleBookmark articleId st))) = st) ∧
  ((∀ a, a ∈ A → id a ≠ articleId) →
     App.toggleBookmark articleId A = A ∧
     App.bookmarkFeedback A articleId = None ∧
     (∀ st, App.articles st = A →
        App.handleBookmark articleId st = (st, None))).
Proof.
  split_and!.
  - apply toggleBookmark_twice.
  - intros st. unfold App.handleBookmark, App.setArticles. simpl.
    rewrite toggleBookmark_twice. apply AppState_eta.
  - intros Hmiss. split_and!.
    + by apply toggleBookmark_miss.
    + by apply bookmarkFeedback_miss.
    + intros st <-. unfold App.handleBookmark, App.setArticles.
      rewrite toggleBookmark_miss, bookmarkFeedback_miss by done.
      by rewrite AppState_eta.
Qed.

Lemma toggleBookmark_self_inverse_and_silent_miss_witness :
  (∀ a, a ∈ mockArticles → id a ≠ lit "7") ∧
  App.toggleBookmark (lit "2") (App.toggleBookmark (lit "2") mockArticles)
    = mockArticles ∧
  App.handleBookmark (lit "7") App.initialState = (App.initialState, None).
Proof.
  assert (∀ a, a ∈ mockArticles → id a ≠ lit "7") as Hmiss.
  { apply Forall_forall. repeat constructor; by vm_compute. }
  split; [exact Hmiss|]. split.
  - exact (proj1 (toggleBookmark_self_inverse_and_silent_miss
                    mockArticles (lit "2"))).
  - exact (proj2 (proj2 (proj2 (proj2
             (toggleBookmark_self_inverse_and_silent_miss
                mockArticles (lit "7"))) Hmiss)) App.initialState eq_refl).
Defined.

(* ===================================================================== *)
(** ** Category filter, view composition, saved list *)
(* ===================================================================== *)

(** C2. The first element of a filtered sequence is the featured article
    and the rest, in order, the regular ones; the empty sequence has no
    featured article and no regular ones. *)
Theorem composeCategoryView_first_and_rest :
  App.composeCategoryView [] = {| App.featured := None; App.regular := [] |} ∧
  (∀ x rest, App.composeCategoryView (x :: rest)
             = {| App.featured := Some x; App.regular := rest |}) ∧
  (∀ x, App.composeCategoryView [x]
        = {| App.featured := Some x; App.regular := [] |}) ∧
  (∀ x y z, App.composeCategoryView [x; y; z]
            = {| App.featured := Some x; App.regular := [y; z] |}) ∧
  (∀ st, App.featuredArticle st = App.filteredArticles st !! 0 ∧
         App.regularArticles st = drop 1 (App.filteredArticles st)).
Proof. by split_and!. Qed.

(** C5. With the category ["home"] the filter returns the collection
    itself. *)
Theorem filterByCategory_home (A : list Article) :
  App.filterByCategory A (lit "home") = A.
Proof. unfold App.filterByCategory. by rewrite decide_True. Qed.

(** C6. With a category [c] other than ["home"], every article the filter
    returns has category [c], the result keeps the order of the collection
    and holds every article of category [c], and filtering the result by
    [c] again changes nothing; when no article has category [c] the result
    is the empty sequence. *)
Theorem filterByCategory_other (A : list Article) (c : jsstring) :
  c ≠ lit "home" →
  (∀ a, a ∈ App.filterByCategory A c → category a = c) ∧
  App.filterByCategory A c `sublist_of` A ∧
  (∀ a, a ∈ A → category a = c → a ∈ App.filterByCategory A c) ∧
  App.filterByCategory (App.filterByCategory A c) c = App.filterByCategory A c ∧
  ((∀ a, a ∈ A → category a ≠ c) → App.filterByCategory A c = []).
Proof.
  intros Hc. unfold App.filterByCategory. rewrite !decide_False by done.
  split_and!.
  - intros a Ha. by apply list_elem_of_filter in Ha as [? _].
  - apply sublist_filter.
  - intros a Ha Hcat. by apply list_elem_of_filter.
  - by apply list_filter_filter_l.
  - intros Hnone. induction A as [|a A IH]; [done|].
    rewrite filter_cons_False by (apply Hnone; left).
    apply IH. intros b Hb. apply Hnone. by right.
Qed.

Lemma filterByCategory_other_witness :
  lit "sport" ≠ lit "home" ∧
  id <$> App.filterByCategory mockArticles (lit "sport") = [lit "3"] ∧
  App.filterByCategory (App.filterByCategory mockArticles (lit "sport"))
    (lit "sport") = App.filterByCategory mockArticles (lit "sport").
Proof.
  assert (lit "sport" ≠ lit "home") as Hc by (by vm_compute).
  split; [exact Hc|]. split; [by vm_compute|].
  exact (proj1 (proj2 (proj2 (proj2
           (filterByCategory_other mockArticles (lit "sport") Hc))))).
Defined.

(** C4. The saved list holds exactly the bookmarked articles of the
    collection, in collection order; it is a function of the collection
    alone: a change of category does not change it, and no event other than
    a bookmark toggle does, the search dialog's included. *)
Theorem savedArticles_exactly_bookmarked (st : App.AppState) :
  (∀ a, a ∈ App.savedArticles st ↔
        a ∈ App.articles st ∧ isBookmarked a = true) ∧
  App.savedArticles st `sublist_of` App.articles st ∧
  (∀ st', App.articles st' = App.articles st →
          App.savedArticles st' = App.savedArticles st) ∧
  (∀ c, App.savedArticles (App.setActiveCategory c st)
        = App.savedArticles st) ∧
  (∀ e, (∀ articleId, e ≠ App.Bookmark articleId) →
        App.savedArticles (App.step st e) = App.savedArticles st).
Proof.
  unfold App.savedArticles. split_and!.
  - intros a. rewrite list_elem_of_filter, Is_true_true. tauto.
  - apply sublist_filter.
  - by intros st' ->.
  - done.
  - intros e He. destruct e; simpl; try done.
    + by destruct (App.showInstallButton st).
    + by destruct (He articleId).
Qed.

Lemma savedArticles_exactly_bookmarked_witness :
  App.articles (App.setActiveCategory (lit "sport") App.initialState)
    = App.articles App.initialState ∧
  (∀ articleId, App.CategoryClick (lit "sport") ≠ App.Bookmark articleId) ∧
  id <$> App.savedArticles
           (App.setActiveCategory (lit "sport") App.initialState)
    = [lit "2"; lit "5"] ∧
  App.savedArticles (App.step App.initialState (App.CategoryClick (lit "sport")))
    = App.savedArticles App.initialState.
Proof.
  assert (∀ articleId,
            App.CategoryClick (lit "sport") ≠ App.Bookmark articleId) as He.
  { intros articleId Heq. discriminate Heq. }
  split; [reflexivity|]. split; [exact He|]. split.
  - rewrite (proj1 (proj2 (proj2
               (savedArticles_exactly_bookmarked App.initialState)))
               (App.setActiveCategory (lit "sport") App.initialState) eq_refl).
    by vm_compute.
  - exact (proj2 (proj2 (proj2 (proj2
             (savedArticles_exactly_bookmarked App.initialState))))
             (App.CategoryClick (lit "sport")) He).
Defined.

(* ===================================================================== *)
(** ** Screen selection *)
(* ===================================================================== *)

Section ScreenFacts.
Context `{Platform}.

Lemma screen_offline (st : App.AppState) :
  App.isOffline st = true → App.screen st = App.OFFLINE.
Proof. unfold App.screen. by intros ->. Qed.

(** C8, as the code has it. In every reachable state with the offline flag
    set the screen is OFFLINE, whether or not an article is selected; retry,
    back and the browser's [online] event are all three offered, each clears
    the flag, keeps the selection, and leads to ARTICLE when an article is
    selected and to LIST when none is; selecting a saved article keeps the
    screen OFFLINE and records the article; and an event that leaves OFFLINE
    is one of those three, so it clears the flag and leads to ARTICLE or LIST
    in the same way. *)
Theorem offline_screen_transitions (st : App.AppState) :
  App.reachable st → App.isOffline st = true →
  App.screen st = App.OFFLINE ∧
  (App.available st App.Retry ∧ App.available st App.OfflineBack ∧
   App.available st App.WindowOnline) ∧
  (App.isOffline (App.step st App.Retry) = false ∧
   App.isOffline (App.step st App.OfflineBack) = false ∧
   App.isOffline (App.step st App.WindowOnline) = false) ∧
  (∀ e, e = App.Retry ∨ e = App.OfflineBack ∨ e = App.WindowOnline →
        App.selectedArticle (App.step st e) = App.selectedArticle st ∧
        App.screen (App.step st e)
        = match App.selectedArticle st with
          | Some _ => App.ARTICLE
          | None => App.LIST
          end) ∧
  (∀ a, App.available st (App.ArticleClick a) →
        a ∈ App.savedArticles st ∧
        App.screen (App.step st (App.ArticleClick a)) = App.OFFLINE ∧
        App.selectedArticle (App.step st (App.ArticleClick a)) = Some a) ∧
  (∀ e, App.available st e →
        App.screen (App.step st e) = App.OFFLINE ∨
        ((e = App.Retry ∨ e = App.OfflineBack ∨ e = App.WindowOnline) ∧
         App.isOffline (App.step st e) = false ∧
         App.screen (App.step st e)
         = match App.selectedArticle st with
           | Some _ => App.ARTICLE
           | None => App.LIST
           end)).
Proof.
  intros _ Hoff. pose proof (screen_offline st Hoff) as Hscr.
  split_and!; try done.
  - intros e [-> | [-> | ->]]; by split.
  - intros a Ha. simpl in Ha. rewrite Hscr in Ha.
    split_and!; [done| |done]. by apply screen_offline.
  - intros e He.
    destruct e; simpl in He; rewrite ?Hscr in He;
      try (by destruct He); try done;
      try (left; by apply screen_offline);
      try (right; split_and!; [by eauto|reflexivity|reflexivity]).
    left. apply screen_offline. simpl.
    by destruct (App.showInstallButton st).
Qed.
End ScreenFacts.

Lemma reachable_offline_with_article (a : Article) :
  a ∈ App.savedArticles App.initialState →
  App.reachable (H:=ascii_platform)
    (App.step (App.step App.initialState App.PreviewOffline)
              (App.ArticleClick a)).
Proof.
  intros Ha. apply App.reachable_step.
  - apply App.reachable_step; [apply App.reachable_init|].
    split; [reflexivity|]. by vm_compute.
  - exact Ha.
Defined.

Lemma offline_screen_transitions_witness :
  let st := App.step (App.step App.initialState App.PreviewOffline)
                     (App.ArticleClick article_2) in
  App.reachable (H:=ascii_platform) st ∧
  App.isOffline st = true ∧
  App.screen st = App.OFFLINE ∧
  App.screen (App.step st App.Retry) = App.ARTICLE ∧
  App.isOffline (App.step st App.WindowOnline) = false ∧
  App.screen (App.step st App.WindowOnline) = App.ARTICLE.
Proof.
  intros st.
  assert (article_2 ∈ App.savedArticles App.initialState) as Ha
    by (apply list_elem_of_here).
  pose proof (reachable_offline_with_article article_2 Ha) as Hreach.
  split; [exact Hreach|]. split; [reflexivity|].
  pose proof (offline_screen_transitions (H:=ascii_platform) st Hreach eq_refl)
    as (Hscr & _ & (_ & _ & Hclear) & Hgo & _ & Hleave).
  split; [exact Hscr|]. split; [|split; [exact Hclear|]].
  - destruct (Hleave App.Retry eq_refl) as [Hstay | (_ & _ & Hto)];
      [|exact Hto].
    discriminate Hstay.
  - exact (proj2 (Hgo App.WindowOnline (or_intror (or_intror eq_refl)))).
Defined.

(** C8, as stated, fails. From the initial state, "Preview Offline Mode"
    and a click on the saved article "2" lead to a reachable state with the
    offline flag set and an article selected; the screen is OFFLINE, retry
    is offered, and after retry the screen is ARTICLE, not LIST. So it is
    not the case that every event leaving OFFLINE leads to LIST. *)
Lemma offline_retry_opens_article :
  (let st1 := App.step App.initialState App.PreviewOffline in
   let st2 := App.step st1 (App.ArticleClick article_2) in
   App.available (H:=ascii_platform) App.initialState App.PreviewOffline ∧
   App.available (H:=ascii_platform) st1 (App.ArticleClick article_2) ∧
   App.reachable (H:=ascii_platform) st2 ∧
   App.isOffline st2 = true ∧
   App.screen st2 = App.OFFLINE ∧
   App.available (H:=ascii_platform) st2 App.Retry ∧
   App.screen (App.step st2 App.Retry) = App.ARTICLE) ∧
  ¬ (∀ st e,
       App.reachable (H:=ascii_platform) st → App.isOffline st = true →
       App.available (H:=ascii_platform) st e →
       App.screen (App.step st e) ≠ App.OFFLINE →
       App.screen (App.step st e) = App.LIST).
Proof.
  assert (article_2 ∈ App.savedArticles App.initialState) as Ha
    by (apply list_elem_of_here).
  pose proof (reachable_offline_with_article article_2 Ha) as Hreach.
  split.
  - split_and!; try reflexivity; try exact Hreach; try exact Ha.
    split; [reflexivity|]. by vm_compute.
  - intros Hclaim.
    specialize (Hclaim _ App.Retry Hreach eq_refl eq_refl).
    by discriminate Hclaim.
Qed.

(* ===================================================================== *)
(** ** Regular expressions: the matcher decides the denotation *)
(* ===================================================================== *)

Import ContactForm.

Lemma matches_empty_inv (s : jsstring) : ¬ matches Empty s.
Proof. inversion 1. Qed.

Lemma matches_eps_inv (s : jsstring) : matches Eps s ↔ s = [].
Proof. split; [by inversion 1 | intros ->; constructor]. Qed.

Lemma matches_class_inv (p : N → bool) (s : jsstring) :
  matches (Class p) s ↔ ∃ c, s = [c] ∧ p c = true.
Proof.
  split.
  - inversion 1; subst. eauto.
  - intros (c & -> & Hc). by constructor.
Qed.

Lemma matches_seq_inv (r1 r2 : regex) (s : jsstring) :
  matches (Seq r1 r2) s ↔
  ∃ s1 s2, s = s1 ++ s2 ∧ matches r1 s1 ∧ matches r2 s2.
Proof.
  split.
  - inversion 1; subst. eauto.
  - intros (s1 & s2 & -> & H1 & H2). by constructor.
Qed.

Lemma matches_alt_inv (r1 r2 : regex) (s : jsstring) :
  matches (Alt r1 r2) s ↔ matches r1 s ∨ matches r2 s.
Proof.
  split.
  - inversion 1; subst; auto.
  - intros [H1 | H2]; [by apply matches_alt_l | by apply matches_alt_r].
Qed.

(** A non-empty match of [r*] starts with a non-empty match of [r]. *)
Lemma matches_star_cons_inv (r : regex) (c : N) (s : jsstring) :
  matches (Star r) (c :: s) →
  ∃ s1 s2, s = s1 ++ s2 ∧ matches r (c :: s1) ∧ matches (Star r) s2.
Proof.
  intros Hm. remember (Star r) as r' eqn:Hr. remember (c :: s) as t eqn:Ht.
  induction Hm as [| | | | | |r0 s1 s2 H1 _ H2 IH2]; try discriminate.
  injection Hr as ->. destruct s1 as [|d s1]; simpl in Ht.
  - by apply IH2.
  - injection Ht as -> <-. eauto.
Qed.

Lemma nullable_spec (r : regex) : nullable r = true ↔ matches r [].
Proof.
  induction r as [| |p|r1 IH1 r2 IH2|r1 IH1 r2 IH2|r IH]; simpl.
  - split; [done|]. by intros ?%matches_empty_inv.
  - split; [constructor|done].
  - split; [done|]. intros (c & Hc & _)%matches_class_inv. discriminate Hc.
  - rewrite andb_true_iff, IH1, IH2, matches_seq_inv. split.
    + intros [H1 H2]. by exists [], [].
    + intros (s1 & s2 & Hs & H1 & H2).
      symmetry in Hs. apply app_eq_nil in Hs as [-> ->]. done.
  - rewrite orb_true_iff, IH1, IH2, matches_alt_inv. done.
  - split; [constructor|done].
Qed.

Lemma derivative_spec (r : regex) (c : N) (s : jsstring) :
  matches (derivative c r) s ↔ matches r (c :: s).
Proof.
  revert s.
  induction r as [| |p|r1 IH1 r2 IH2|r1 IH1 r2 IH2|r IH]; intros s; simpl.
  - split; by intros ?%matches_empty_inv.
  - split; [by intros ?%matches_empty_inv|].
    intros Hm%matches_eps_inv. discriminate Hm.
  - rewrite matches_class_inv. destruct (p c) eqn:Hp.
    + rewrite matches_eps_inv. split.
      * intros ->. eauto.
      * intros (d & Hd & _). by injection Hd as _ ->.
    + split; [by intros ?%matches_empty_inv|].
      intros (d & Hd & Hpd). injection Hd as -> _. congruence.
  - assert (matches (Seq (derivative c r1) r2) s ∨
            (matches r1 [] ∧ matches r2 (c :: s))
            ↔ matches (Seq r1 r2) (c :: s)) as Hseq.
    { rewrite !matches_seq_inv. split.
      - intros [(s1 & s2 & -> & H1 & H2) | [H1 H2]].
        + exists (c :: s1), s2. by rewrite <-IH1.
        + by exists [], (c :: s).
      - intros (s1 & s2 & Hs & H1 & H2). destruct s1 as [|d s1]; simpl in Hs.
        + right. by subst.
        + left. injection Hs as -> ->. exists s1, s2. by rewrite IH1. }
    rewrite <-Hseq. destruct (nullable r1) eqn:Hn.
    + rewrite matches_alt_inv, IH2.
      apply nullable_spec in Hn. tauto.
    + split; [tauto|]. intros [?|[Hnil _]]; [done|].
      apply nullable_spec in Hnil. congruence.
  - by rewrite !matches_alt_inv, IH1, IH2.
  - rewrite matches_seq_inv. split.
    + intros (s1 & s2 & -> & H1 & H2). apply IH in H1.
      by apply (matches_star_cons r (c :: s1) s2).
    + intros (s1 & s2 & -> & H1 & H2)%matches_star_cons_inv.
      exists s1, s2. by rewrite IH.
Qed.

(** [regex_test] answers whether the whole string is in the denotation. *)
Lemma regex_test_spec (r : regex) (s : jsstring) :
  regex_test r s = true ↔ matches r s.
Proof.
  revert r. induction s as [|c s IH]; intros r; simpl.
  - apply nullable_spec.
  - by rewrite IH, derivative_spec.
Qed.

Lemma matches_star_class (p : N → bool) (s : jsstring) :
  matches (Star (Class p)) s ↔ Forall (λ c, p c = true) s.
Proof.
  split.
  - induction s as [|c s IH]; [constructor|].
    intros (s1 & s2 & -> & H1 & H2)%matches_star_cons_inv.
    apply matches_class_inv in H1 as (d & Hd & Hp).
    injection Hd as <- ->. constructor; [done | by apply IH].
  - induction 1 as [|c s Hc _ IH]; [constructor|].
    apply (matches_star_cons (Class p) [c] s); [by constructor | done].
Qed.

Lemma matches_plus_class (p : N → bool) (s : jsstring) :
  matches (Plus (Class p)) s ↔ s ≠ [] ∧ Forall (λ c, p c = true) s.
Proof.
  unfold Plus. rewrite matches_seq_inv. split.
  - intros (s1 & s2 & -> & (c & -> & Hc)%matches_class_inv
              & H2%matches_star_class).
    split; [done | by constructor].
  - intros [Hne Hall]. destruct Hall as [|c s Hc Hall]; [done|].
    exists [c], s. split_and!; [done | by constructor |].
    by apply matches_star_class.
Qed.

Lemma matches_char (c : N) (s : jsstring) : matches (Char c) s ↔ s = [c].
Proof.
  unfold Char. rewrite matches_class_inv. split.
  - intros (d & -> & Hd%N.eqb_eq). by subst.
  - intros ->. exists c. by rewrite N.eqb_refl.
Qed.

(** The shape [emailRegex] accepts: [local@domain.tld], each of the three
    parts non-empty and free of white space and of [@]. *)
Lemma emailRegex_shape (s : jsstring) :
  matches emailRegex s ↔
  ∃ l d t : jsstring,
    s = l ++ [64%N] ++ d ++ [46%N] ++ t ∧
    (l ≠ [] ∧ Forall (λ c, notSpaceNorAt c = true) l) ∧
    (d ≠ [] ∧ Forall (λ c, notSpaceNorAt c = true) d) ∧
    (t ≠ [] ∧ Forall (λ c, notSpaceNorAt c = true) t).
Proof.
  unfold emailRegex. split.
  - intros (l & s1 & -> & Hl & Hs1)%matches_seq_inv.
    apply matches_seq_inv in Hs1 as (a & s2 & -> & Ha & Hs2).
    apply matches_seq_inv in Hs2 as (d & s3 & -> & Hd & Hs3).
    apply matches_seq_inv in Hs3 as (b & t & -> & Hb & Ht).
    apply matches_char in Ha as ->. apply matches_char in Hb as ->.
    apply matches_plus_class in Hl, Hd, Ht. by exists l, d, t.
  - intros (l & d & t & -> & Hl & Hd & Ht).
    apply matches_plus_class in Hl, Hd, Ht.
    repeat (apply matches_seq; [try done; by apply matches_char|]).
    done.
Qed.

(* ===================================================================== *)
(** ** The contact-form handler *)
(* ===================================================================== *)

Section ContactFormFacts.
Context `{Platform}.

Lemma handler_post (clock : Clock) (event : HandlerEvent) :
  httpMethod event = lit "POST" →
  handler clock event = match tryBlock clock event with
                        | Some response => response
                        | None => unableToProcess
                        end.
Proof.
  intros Hpost. unfold handler. rewrite Hpost.
  rewrite decide_False by (by vm_compute).
  rewrite decide_False by (intros Hne; by apply Hne).
  done.
Qed.

Lemma tryBlock_parsed (clock : Clock) (event : HandlerEvent) (value : JSON) :
  eventBody event = JSONText value → value ≠ JNull →
  tryBlock clock event =
    if negb (ToBoolean (Get value (lit "name")))
       || negb (ToBoolean (Get value (lit "email")))
       || negb (ToBoolean (Get value (lit "message")))
    then Some missingRequiredFields
    else match Get value (lit "email") ≫= ToString with
         | None => None
         | Some text =>
             if negb (regex_test emailRegex text)
             then Some invalidEmailAddress
             else Some (accepted clock)
         end.
Proof.
  intros Hbody Hnull. unfold tryBlock. rewrite Hbody. by destruct value.
Qed.

(** The falsy values: [undefined], [null], [false], a zero Number and the
    empty string. *)
Lemma ToBoolean_false_iff (v : option JSON) :
  ToBoolean v = false ↔
  v = None ∨ v = Some JNull ∨ v = Some (JBool false) ∨
  (∃ x, v = Some (JNumber x) ∧ Number_ToBoolean x = false) ∨
  v = Some (JString []).
Proof.
  split.
  - destruct v as [[|[]|x|[|c s]|l|ms]|]; simpl; intros Hv;
      try discriminate Hv; eauto 6.
    right; right; right; left. by exists x.
  - intros [-> | [-> | [-> | [(x & -> & Hx) | ->]]]]; done.
Qed.

(** C9, as the code has it. For a POST request with a body:
    - a body that is not JSON text, or is the JSON text [null], gives the
      500 response;
    - otherwise, if [name], [email] or [message] is absent or falsy, the
      handler gives the 400 response that names the three required fields;
    - otherwise, if converting [email] to a string throws, the 500
      response; if the string does not match the pattern, the 400
      invalid-email response; and if it matches, the 200 response, whose
      body has [success: true] and the submission id
      [contact_<Date.now()>].
    The pattern accepts the strings [local@domain.tld] whose three parts
    are non-empty and free of white space and of [@]. *)
Theorem contact_form_post_responses (clock : Clock) (event : HandlerEvent) :
  httpMethod event = lit "POST" →
  (eventBody event = Malformed ∨ eventBody event = JSONText JNull →
     handler clock event = unableToProcess) ∧
  (∀ v, ToBoolean v = false ↔
        v = None ∨ v = Some JNull ∨ v = Some (JBool false) ∨
        (∃ x, v = Some (JNumber x) ∧ Number_ToBoolean x = false) ∨
        v = Some (JString [])) ∧
  (∀ text, matches emailRegex text ↔
     ∃ l d t : jsstring,
       text = l ++ [64%N] ++ d ++ [46%N] ++ t ∧
       (l ≠ [] ∧ Forall (λ c, notSpaceNorAt c = true) l) ∧
       (d ≠ [] ∧ Forall (λ c, notSpaceNorAt c = true) d) ∧
       (t ≠ [] ∧ Forall (λ c, notSpaceNorAt c = true) t)) ∧
  (∀ value, eventBody event = JSONText value → value ≠ JNull →
     (ToBoolean (Get value (lit "name")) = false ∨
      ToBoolean (Get value (lit "email")) = false ∨
      ToBoolean (Get value (lit "message")) = false →
        handler clock event = missingRequiredFields) ∧
     (Get value (lit "name") = None ∨
      Get value (lit "email") = None ∨
      Get value (lit "message") = None →
        handler clock event = missingRequiredFields) ∧
     (ToBoolean (Get value (lit "name")) = true →
      ToBoolean (Get value (lit "email")) = true →
      ToBoolean (Get value (lit "message")) = true →
      ∀ email, Get value (lit "email") = Some email →
        (ToString email = None → handler clock event = unableToProcess) ∧
        (∀ text, ToString email = Some text →
           (¬ matches emailRegex text →
              handler clock event = invalidEmailAddress) ∧
           (matches emailRegex text →
              handler clock event = accepted clock)))) ∧
  (statusCode unableToProcess = 500%N ∧
   statusCode missingRequiredFields = 400%N ∧
   bodyMember missingRequiredFields (lit "required")
     = Some (JArray [JString (lit "name"); JString (lit "email");
                     JString (lit "message")]) ∧
   statusCode invalidEmailAddress = 400%N ∧
   bodyMember invalidEmailAddress (lit "error")
     = Some (JString (lit "Invalid email address")) ∧
   statusCode (accepted clock) = 200%N ∧
   bodyMember (accepted clock) (lit "success") = Some (JBool true) ∧
   bodyMember (accepted clock) (lit "submissionId")
     = Some (JString (lit "contact_" ++ decimal (Date_now clock)))).
Proof.
  intros Hpost. rewrite (handler_post clock event Hpost). split_and!.
  - unfold tryBlock. by intros [-> | ->].
  - apply ToBoolean_false_iff.
  - apply emailRegex_shape.
  - intros value Hbody Hnull.
    rewrite (tryBlock_parsed clock event value Hbody Hnull). split_and!.
    + by intros [-> | [-> | ->]]; rewrite ?orb_true_r.
    + by intros [-> | [-> | ->]]; rewrite ?orb_true_r.
    + intros -> -> -> email ->. simpl. split.
      * by intros ->.
      * intros text ->. split.
        -- intros Hno. destruct (regex_test emailRegex text) eqn:Htest; [|done].
           by apply regex_test_spec in Htest.
        -- intros Hyes. apply regex_test_spec in Hyes. by rewrite Hyes.
  - done.
  - done.
  - by vm_compute.
  - done.
  - by vm_compute.
  - done.
  - by vm_compute.
  - by vm_compute.
Qed.
End ContactFormFacts.

Lemma contact_form_post_responses_witness :
  let clock := {| Date_now := 1734510600000%N;
                  Date_toISOString := lit "2024-12-18T08:30:00.000Z" |} in
  let value :=
    JObject (H:=ascii_platform)
      [ (lit "name", JString (lit "Thandi"));
        (lit "email", JString (lit "thandi@example.co.za"));
        (lit "message", JString (lit "Hello")) ] in
  let event := {| httpMethod := lit "POST"; eventBody := JSONText value |} in
  httpMethod event = lit "POST" ∧
  eventBody event = JSONText value ∧
  value ≠ JNull ∧
  matches emailRegex (lit "thandi@example.co.za") ∧
  handler clock event = accepted clock.
Proof.
  intros clock value event.
  assert (matches emailRegex (lit "thandi@example.co.za")) as Hemail.
  { apply regex_test_spec. by vm_compute. }
  assert (value ≠ JNull) as Hnull by done.
  split_and!; [reflexivity | reflexivity | exact Hnull | exact Hemail |].
  pose proof (contact_form_post_responses (H:=ascii_platform)
                clock event eq_refl) as (_ & _ & _ & Hparsed & _).
  destruct (Hparsed value eq_refl Hnull) as (_ & _ & Htruthy).
  destruct (Htruthy eq_refl eq_refl eq_refl
              (JString (lit "thandi@example.co.za")) eq_refl) as [_ Hstring].
  exact (proj2 (Hstring (lit "thandi@example.co.za") eq_refl) Hemail).
Defined.

(** C9, as stated, fails. A POST request whose body is a text that is not
    JSON has no [name], [email] or [message], yet the handler answers 500,
    not 400: [JSON.parse] throws inside the [try] block and the [catch]
    clause builds the response. The same happens for the body [null]. *)
Lemma contact_form_unparseable_body :
  (let clock := {| Date_now := 1734510600000%N;
                   Date_toISOString := lit "2024-12-18T08:30:00.000Z" |} in
   let event := {| httpMethod := lit "POST";
                   eventBody := Malformed (H:=ascii_platform) |} in
   let event' := {| httpMethod := lit "POST";
                    eventBody := JSONText (JNull (H:=ascii_platform)) |} in
   httpMethod event = lit "POST" ∧
   requestField event (lit "name") = None ∧
   handler clock event = unableToProcess ∧
   statusCode (handler clock event) = 500%N ∧
   requestField event' (lit "name") = None ∧
   statusCode (handler clock event') = 500%N) ∧
  ¬ (∀ (clock : Clock) (event : HandlerEvent (H:=ascii_platform)),
       httpMethod event = lit "POST" →
       requestField event (lit "name") = None ∨
       requestField event (lit "email") = None ∨
       requestField event (lit "message") = None →
       statusCode (handler clock event) = 400%N).
Proof.
  split.
  - by vm_compute.
  - intros Hclaim.
    specialize (Hclaim
      {| Date_now := 0%N; Date_toISOString := [] |}
      {| httpMethod := lit "POST"; eventBody := Malformed |}
      eq_refl (or_introl eq_refl)).
    vm_compute in Hclaim. discriminate Hclaim.
Qed.

(* ===================================================================== *)
(** ** The definitions run on the seeded articles and on sample requests *)
(* ===================================================================== *)

Example seed_home :
  id <$> App.filterByCategory mockArticles (lit "home")
  = lit <$> ["1"; "2"; "3"; "4"; "5"; "6"]%string.
Proof. reflexivity. Qed.

Example seed_sport :
  id <$> App.filterByCategory mockArticles (lit "sport") = [lit "3"].
Proof. by vm_compute. Qed.

Example seed_opinion :
  App.filterByCategory mockArticles (lit "opinion") = [] ∧
  App.composeCategoryView (App.filterByCategory mockArticles (lit "opinion"))
  = {| App.featured := None; App.regular := [] |}.
Proof. by vm_compute. Qed.

Example seed_search_rugby :
  id <$> SearchDialog.filteredArticles (H:=ascii_platform)
           mockArticles (lit "rugby") = [lit "3"] ∧
  id <$> SearchDialog.filteredArticles (H:=ascii_platform)
           mockArticles (lit "RUGBY ") = [lit "3"] ∧
  id <$> SearchDialog.filteredArticles (H:=ascii_platform)
           mockArticles (lit "rugby  ") = [].
Proof. by vm_compute. Qed.

Example seed_search_blank_and_miss :
  SearchDialog.filteredArticles (H:=ascii_platform) mockArticles (lit "   ")
  = [] ∧
  SearchDialog.filteredArticles (H:=ascii_platform) mockArticles (lit "zzz")
  = [].
Proof. by vm_compute. Qed.

Example seed_toggle_2 :
  id <$> App.savedArticles App.initialState = [lit "2"; lit "5"] ∧
  id <$> App.savedArticles
           (fst (App.handleBookmark (lit "2") App.initialState))
  = [lit "5"] ∧
  snd (App.handleBookmark (lit "2") App.initialState)
  = Some (App.toast_success (lit "Removed from saved articles")
            (Some (lit "Article removed from your saved collection"))).
Proof. by vm_compute. Qed.

Example email_shapes :
  regex_test emailRegex (lit "a@b.c") = true ∧
  regex_test emailRegex (lit "first.last@news.example.org") = true ∧
  regex_test emailRegex (lit "a@b") = false ∧
  regex_test emailRegex (lit "@b.c") = false ∧
  regex_test emailRegex (lit "a@@b.c") = false ∧
  regex_test emailRegex (lit "a b@c.d") = false ∧
  regex_test emailRegex (lit "a@b.c" ++ [10%N]) = false.
Proof. by vm_compute. Qed.

Example handler_other_methods :
  let clock := {| Date_now := 0%N; Date_toISOString := [] |} in
  handler (H:=ascii_platform) clock
    {| httpMethod := lit "OPTIONS"; eventBody := NoBody |}
  = respond 200%N body_empty ∧
  handler (H:=ascii_platform) clock
    {| httpMethod := lit "GET"; eventBody := NoBody |}
  = methodNotAllowed.
Proof. by vm_compute. Qed.

Example handler_sample_bodies :
  let clock := {| Date_now := 1734510600000%N;
                  Date_toISOString := lit "2024-12-18T08:30:00.000Z" |} in
  let post (email : JSON (H:=ascii_platform)) (name : jsstring) :=
    {| httpMethod := lit "POST";
       eventBody := JSONText (JObject
         [ (lit "name", JString name); (lit "email", email);
           (lit "message", JString (lit "Hello")) ]) |} in
  (* an empty name is present, and falsy *)
  handler clock (post (JString (lit "a@b.co")) []) = missingRequiredFields ∧
  handler clock (post (JString (lit "a@b")) (lit "Thandi"))
  = invalidEmailAddress ∧
  (* [true] prints as "true", [7] as "7" *)
  handler clock (post (JBool true) (lit "Thandi")) = invalidEmailAddress ∧
  handler clock (post (JNumber (H:=ascii_platform) 7%N) (lit "Thandi")) = invalidEmailAddress ∧
  (* [["a@b.co"]] prints as "a@b.co", [{}] as "[object Object]" *)
  handler clock (post (JArray [JString (lit "a@b.co")]) (lit "Thandi"))
  = accepted clock ∧
  handler clock (post (JObject []) (lit "Thandi")) = invalidEmailAddress ∧
  (* [{"toString": 1}] cannot be converted *)
  handler clock (post (JObject [(lit "toString", JNumber (H:=ascii_platform) 1%N)])
                 (lit "Thandi"))
  = unableToProcess ∧
  bodyMember (accepted (H:=ascii_platform) clock) (lit "submissionId")
  = Some (JString (lit "contact_1734510600000")).
Proof. by vm_compute. Qed.

(** A POST request without a body is answered 500 as well: this handler
    parses [event.body] as it is, where [example-api.js] and
    [push-notifications.js] read a missing body as [{}]. *)
Example handler_no_body :
  let clock := {| Date_now := 1734510600000%N;
                  Date_toISOString := lit "2024-12-18T08:30:00.000Z" |} in
  handler (H:=ascii_platform) clock
    {| httpMethod := lit "POST"; eventBody := NoBody |}
  = unableToProcess.
Proof. by vm_compute. Qed.

(* ===================================================================== *)
(** ** More on the article store *)
(* ===================================================================== *)

Lemma same_but_isBookmarked_refl (a : Article) : same_but_isBookmarked a a.
Proof. by repeat split. Qed.

Lemma same_but_isBookmarked_with (a : Article) (b : bool) :
  same_but_isBookmarked a (with_isBookmarked a b).
Proof. by repeat split. Qed.

Lemma same_but_isBookmarked_trans (a b c : Article) :
  same_but_isBookmarked a b → same_but_isBookmarked b c →
  same_but_isBookmarked a c.
Proof.
  unfold same_but_isBookmarked.
  intros (?&?&?&?&?&?&?&?&?) (?&?&?&?&?&?&?&?&?). split_and!; congruence.
Qed.

Lemma toggleBookmark_lookup (articleId : jsstring) (A : list Article) (k : nat) :
  App.toggleBookmark articleId A !! k =
  (λ a, if decide (id a = articleId)
        then with_isBookmarked a (negb (isBookmarked a)) else a) <$> A !! k.
Proof. unfold App.toggleBookmark. apply list_lookup_fmap. Qed.

Lemma toggleBookmark_same_but_isBookmarked
    (articleId : jsstring) (A : list Article) :
  Forall2 same_but_isBookmarked A (App.toggleBookmark articleId A).
Proof.
  unfold App.toggleBookmark. apply Forall2_fmap_r, Forall_Forall2_diag.
  apply Forall_forall. intros a _. simpl. case_decide.
  - apply same_but_isBookmarked_with.
  - apply same_but_isBookmarked_refl.
Qed.

(** [handleBookmark] changes nothing but flags: the collection keeps its
    length, every article keeps its position and all its fields other than
    [isBookmarked], an article with another id is kept as it is, and an
    article with the id has its flag negated. *)
Theorem toggleBookmark_changes_only_flags
    (articleId : jsstring) (A : list Article) :
  length (App.toggleBookmark articleId A) = length A ∧
  Forall2 same_but_isBookmarked A (App.toggleBookmark articleId A) ∧
  (∀ k a, A !! k = Some a →
     App.toggleBookmark articleId A !! k =
       Some (if decide (id a = articleId)
             then with_isBookmarked a (negb (isBookmarked a)) else a)) ∧
  id <$> App.toggleBookmark articleId A = id <$> A.
Proof.
  pose proof (toggleBookmark_same_but_isBookmarked articleId A) as Hsame.
  split_and!.
  - unfold App.toggleBookmark. apply length_fmap.
  - exact Hsame.
  - intros k a Ha. by rewrite toggleBookmark_lookup, Ha.
  - clear -Hsame. induction Hsame as [|a b l k Hab _ IH]; [done|].
    rewrite !fmap_cons. f_equal; [symmetry; apply Hab | apply IH].
Qed.

(** Toggling two ids, the same or not, gives the same collection in either
    order. *)
Theorem toggleBookmark_commutes (i j : jsstring) (A : list Article) :
  App.toggleBookmark i (App.toggleBookmark j A) =
  App.toggleBookmark j (App.toggleBookmark i A).
Proof.
  unfold App.toggleBookmark. rewrite <-!list_fmap_compose.
  apply list_fmap_ext. intros _ a _. simpl.
  destruct (decide (id a = j)), (decide (id a = i)); simpl;
    repeat case_decide; simpl in *; done.
Qed.

Lemma filter_toggleBookmark (P : Article → Prop) `{!∀ a, Decision (P a)}
    (articleId : jsstring) (A : list Article) :
  (∀ a b, P (with_isBookmarked a b) ↔ P a) →
  filter P (App.toggleBookmark articleId A) =
  App.toggleBookmark articleId (filter P A).
Proof.
  intros HP. unfold App.toggleBookmark.
  induction A as [|a A IH]; [done|]. rewrite fmap_cons.
  assert (P (if decide (id a = articleId)
             then with_isBookmarked a (negb (isBookmarked a)) else a) ↔ P a)
    as Ha by (case_decide; [apply HP | done]).
  destruct (decide (P a)) as [Hyes|Hno].
  - rewrite !filter_cons_True by tauto. rewrite fmap_cons. by f_equal.
  - rewrite !filter_cons_False by tauto. done.
Qed.

(** The category filter and the bookmark toggle commute: a toggle never
    moves an article into or out of a category view, and the view shows the
    toggled articles. *)
Theorem filterByCategory_toggleBookmark
    (articleId c : jsstring) (A : list Article) :
  App.filterByCategory (App.toggleBookmark articleId A) c =
  App.toggleBookmark articleId (App.filterByCategory A c).
Proof.
  unfold App.filterByCategory. case_decide; [done|].
  by apply filter_toggleBookmark.
Qed.

(** Search and the bookmark toggle commute: toggling a bookmark never
    changes which articles a query finds, nor their order. *)
Theorem search_toggleBookmark `{Platform}
    (articleId q : jsstring) (A : list Article) :
  SearchDialog.filteredArticles (App.toggleBookmark articleId A) q =
  App.toggleBookmark articleId (SearchDialog.filteredArticles A q).
Proof.
  unfold SearchDialog.filteredArticles.
  destruct (truthy_string (trim q)); [|done].
  rewrite filter_toggleBookmark by done.
  unfold App.toggleBookmark. by rewrite fmap_take.
Qed.

Lemma findById_Some (A : list Article) (articleId : jsstring) (a : Article) :
  App.findById A articleId = Some a →
  a ∈ A ∧ id a = articleId.
Proof.
  unfold App.findById. intros Hfind.
  apply fmap_Some in Hfind as ([k b] & Hfind & ->).
  apply list_find_Some in Hfind as (Hk & Hid & _).
  split; [by eapply list_elem_of_lookup_2 | done].
Qed.

Lemma findById_toggleBookmark (A : list Article) (articleId : jsstring) :
  App.findById (App.toggleBookmark articleId A) articleId =
  (λ a, with_isBookmarked a (negb (isBookmarked a))) <$>
    App.findById A articleId.
Proof.
  unfold App.findById, App.toggleBookmark.
  induction A as [|a A IH]; [done|]. rewrite fmap_cons. simpl.
  destruct (decide (id a = articleId)) as [Hid|Hid]; simpl.
  - rewrite !decide_True by done. done.
  - rewrite !decide_False by done.
    rewrite <-!option_fmap_compose in *.
    destruct (list_find (λ a0, id a0 = articleId) A) as [[k b]|] eqn:HA,
      (list_find (λ a0, id a0 = articleId)
         ((λ article, if decide (id article = articleId)
                      then with_isBookmarked article
                             (negb (isBookmarked article))
                      else article) <$> A)) as [[k' b']|] eqn:HB;
      simpl in *; congruence.
Qed.

(** The toast of [handleBookmark] tells what the toggle did: when the
    article is found, the toast says "saved" exactly when the article found
    under the id afterwards is bookmarked; and there is no toast exactly
    when no article has the id. *)
Theorem handleBookmark_toast_agrees
    (articleId : jsstring) (st : App.AppState) :
  (∀ a, App.findById (App.articles st) articleId = Some a →
     App.findById (App.articles (fst (App.handleBookmark articleId st)))
       articleId
       = Some (with_isBookmarked a (negb (isBookmarked a))) ∧
     snd (App.handleBookmark articleId st)
       = Some (App.toast_success
           (if negb (isBookmarked a)
            then lit "Article saved for offline reading"
            else lit "Removed from saved articles")
           (Some (if negb (isBookmarked a)
                  then lit "You can now read this article when offline"
                  else lit "Article removed from your saved collection")))) ∧
  (snd (App.handleBookmark articleId st) = None ↔
     ∀ a, a ∈ App.articles st → id a ≠ articleId).
Proof.
  split.
  - intros a Ha. split.
    + simpl. by rewrite findById_toggleBookmark, Ha.
    + simpl. unfold App.bookmarkFeedback. rewrite Ha.
      by destruct (isBookmarked a).
  - simpl. unfold App.bookmarkFeedback, App.findById. split.
    + intros Hnone a Ha Hid.
      destruct (list_find (λ a0, id a0 = articleId) (App.articles st))
        as [[k b]|] eqn:Hfind; [done|].
      apply list_find_None in Hfind.
      by apply (proj1 (Forall_forall _ _) Hfind a Ha).
    + intros Hmiss. rewrite (proj2 (list_find_None _ _)); [done|].
      by apply Forall_forall.
Qed.

Lemma handleBookmark_toast_agrees_witness :
  App.findById (App.articles App.initialState) (lit "2") = Some article_2 ∧
  snd (App.handleBookmark (lit "2") App.initialState)
    = Some (App.toast_success (lit "Removed from saved articles")
              (Some (lit "Article removed from your saved collection"))).
Proof.
  assert (App.findById (App.articles App.initialState) (lit "2")
          = Some article_2) as Hfind by reflexivity.
  split; [exact Hfind|].
  exact (proj2 (proj1 (handleBookmark_toast_agrees (lit "2") App.initialState)
                  article_2 Hfind)).
Defined.

(** The saved list after a toggle: the saved articles with another id stay,
    those with the id leave, and the articles with the id that were not
    saved come in, bookmarked. *)
Theorem savedArticles_after_bookmark
    (articleId : jsstring) (st : App.AppState) (b : Article) :
  b ∈ App.savedArticles (App.step st (App.Bookmark articleId)) ↔
  (id b ≠ articleId ∧ b ∈ App.savedArticles st) ∨
  (id b = articleId ∧ isBookmarked b = true ∧
   with_isBookmarked b false ∈ App.articles st).
Proof.
  unfold App.savedArticles. simpl. unfold App.toggleBookmark.
  rewrite !list_elem_of_filter, !Is_true_true, list_elem_of_fmap. split.
  - intros [Hb (a & -> & Ha)]. case_decide as Hid.
    + right. simpl in *. split_and!; [done..|].
      apply negb_true_iff in Hb.
      destruct a as [? ? ? ? ? ? ? ? ? flag]. simpl in *. by subst.
    + left. by split.
  - intros [[Hid [Hflag Hin]] | (Hid & Hflag & Hin)].
    + split; [done|]. exists b. by rewrite decide_False.
    + split; [done|]. exists (with_isBookmarked b false). split; [|done].
      rewrite decide_True by done.
      destruct b as [? ? ? ? ? ? ? ? ? flag]. simpl in *. by subst.
Qed.

(** The cap of eight: search returns [min 8 n] articles when [n] articles
    match, and all of them when the collection has at most eight
    articles. *)
Theorem search_cap `{Platform} (A : list Article) (q : jsstring) :
  trim q ≠ [] →
  length (SearchDialog.filteredArticles A q)
    = 8 `min` length (SearchDialog.allMatches A q) ∧
  (length A ≤ 8 →
     SearchDialog.filteredArticles A q = SearchDialog.allMatches A q).
Proof.
  intros Hq. rewrite (filteredArticles_active A q Hq). split.
  - apply length_take.
  - intros HA. apply take_ge.
    pose proof (sublist_length _ _ (sublist_filter
      (λ article, SearchDialog.matchesQuery q article) A)) as Hlen.
    unfold SearchDialog.allMatches. lia.
Qed.

Lemma search_cap_witness :
  trim (lit "the") ≠ [] ∧ length mockArticles ≤ 8 ∧
  SearchDialog.filteredArticles (H:=ascii_platform) mockArticles (lit "the")
    = SearchDialog.allMatches (H:=ascii_platform) mockArticles (lit "the").
Proof.
  assert (trim (lit "the") ≠ []) as Hq by (by vm_compute).
  assert (length mockArticles ≤ 8) as HA by (simpl; lia).
  split; [exact Hq|]. split; [exact HA|].
  exact (proj2 (search_cap (H:=ascii_platform) mockArticles (lit "the") Hq) HA).
Defined.

(* ===================================================================== *)
(** ** Invariants of the component state *)
(* ===================================================================== *)

Lemma filterByCategory_subseteq (A : list Article) (c : jsstring) (a : Article) :
  a ∈ App.filterByCategory A c → a ∈ A.
Proof.
  unfold App.filterByCategory. case_decide; [done|].
  by intros [_ ?]%list_elem_of_filter.
Qed.

Lemma search_subseteq `{Platform} (A : list Article) (q : jsstring) (a : Article) :
  a ∈ SearchDialog.filteredArticles A q → a ∈ A.
Proof.
  unfold SearchDialog.filteredArticles.
  destruct (truthy_string (trim q)); [|by intros ?%elem_of_nil].
  intros Ha. apply (sublist_subseteq _ _ (sublist_take _ 8)) in Ha.
  by apply list_elem_of_filter in Ha as [_ ?].
Qed.

Lemma Forall2_elem_of_r {A B} (R : A → B → Prop) (l : list A) (k : list B) (y : B) :
  Forall2 R l k → y ∈ k → ∃ x, x ∈ l ∧ R x y.
Proof.
  intros HR Hy. apply list_elem_of_lookup in Hy as [i Hi].
  destruct (Forall2_lookup_r _ _ _ _ _ HR Hi) as (x & Hx & Hxy).
  exists x. split; [by eapply list_elem_of_lookup_2 | done].
Qed.

Section InvariantFacts.
Context `{Platform}.

Lemma reachable_articles (st : App.AppState) :
  App.reachable st →
  Forall2 same_but_isBookmarked mockArticles (App.articles st).
Proof.
  induction 1 as [|st e _ IH _].
  - apply Forall_Forall2_diag, Forall_forall.
    intros a _. apply same_but_isBookmarked_refl.
  - destruct e; simpl; try done.
    + by destruct (App.showInstallButton st).
    + eapply Forall2_trans; [|exact IH|
        apply (toggleBookmark_same_but_isBookmarked articleId
                 (App.articles st))].
      intros a b c. apply same_but_isBookmarked_trans.
Qed.

(** The collection of a reachable state is the seeded one up to the
    bookmark flags: same length, same articles at the same positions in
    every field but [isBookmarked], hence the same ids, each once. *)
Theorem reachable_collection_is_seed_up_to_flags (st : App.AppState) :
  App.reachable st →
  Forall2 same_but_isBookmarked mockArticles (App.articles st) ∧
  length (App.articles st) = length mockArticles ∧
  id <$> App.articles st = id <$> mockArticles ∧
  category <$> App.articles st = category <$> mockArticles ∧
  NoDup (id <$> App.articles st).
Proof.
  intros Hreach. pose proof (reachable_articles st Hreach) as Hsame.
  assert (id <$> App.articles st = id <$> mockArticles) as Hids.
  { clear -Hsame. induction Hsame as [|a b l k Hab _ IH]; [done|].
    rewrite !fmap_cons. f_equal; [symmetry; apply Hab | apply IH]. }
  split_and!.
  - exact Hsame.
  - symmetry. by eapply Forall2_length.
  - exact Hids.
  - clear -Hsame. induction Hsame as [|a b l k Hab _ IH]; [done|].
    rewrite !fmap_cons. f_equal; [symmetry; apply Hab | apply IH].
  - rewrite Hids. apply (bool_decide_unpack _). by vm_compute.
Qed.

(** The active category of a reachable state is one of the navigation's
    ids, so exactly one navigation badge has the variant ["default"]; and
    the badge with the destructive classes is the one of ["breaking"],
    when ["breaking"] is active, and none otherwise. *)
Theorem reachable_active_category_is_navigable (st : App.AppState) :
  App.reachable st →
  App.activeCategory st ∈ App.categories ∧
  Navigation.id <$> Navigation.categories = App.categories ∧
  length (filter (λ c, Navigation.badgeVariant (App.activeCategory st) c
                       = lit "default") Navigation.categories) = 1 ∧
  Navigation.id <$>
    filter (λ c, Navigation.badgeDestructive (App.activeCategory st) c = true)
      Navigation.categories
  = if decide (App.activeCategory st = lit "breaking")
    then [lit "breaking"] else [].
Proof.
  intros Hreach.
  assert (App.activeCategory st ∈ App.categories) as Hcat.
  { induction Hreach as [|st e _ IH He].
    - apply (bool_decide_unpack _). by vm_compute.
    - destruct e; simpl; try done.
      + by destruct (App.showInstallButton st).
      + by destruct He as [_ Hc].
      + apply (bool_decide_unpack _). by vm_compute. }
  split; [exact Hcat|]. split; [reflexivity|].
  unfold App.categories in Hcat. rewrite !fmap_cons in Hcat.
  repeat (apply elem_of_cons in Hcat as [-> | Hcat]);
    [by vm_compute.. | by apply elem_of_nil in Hcat].
Qed.

(** Installing is final: in a reachable state the install prompt is only
    shown while the install button is, and once the button is gone no event
    brings the button or the prompt back. *)
Theorem reachable_install_is_final (st : App.AppState) :
  App.reachable st →
  (App.showInstallPrompt st = true → App.showInstallButton st = true) ∧
  (App.showInstallButton st = false →
     App.showInstallPrompt st = false ∧
     ∀ e, App.showInstallButton (App.step st e) = false ∧
          App.showInstallPrompt (App.step st e) = false).
Proof.
  intros Hreach.
  assert (App.showInstallPrompt st = true → App.showInstallButton st = true)
    as Hinv.
  { induction Hreach as [|st e _ IH _]; [done|].
    destruct e; simpl; try done.
    destruct (App.showInstallButton st) eqn:Hb; simpl; [by rewrite Hb|].
    intros Hp. apply IH in Hp. congruence. }
  split; [exact Hinv|]. intros Hbutton.
  assert (App.showInstallPrompt st = false) as Hprompt.
  { destruct (App.showInstallPrompt st); [|done].
    rewrite Hinv in Hbutton; done. }
  split; [exact Hprompt|].
  intros e. destruct e; simpl; rewrite ?Hbutton; done.
Qed.

(** The article shown in the article view of a reachable state is a copy of
    a seeded article, up to its bookmark flag. *)
Theorem reachable_selected_article_is_seeded (st : App.AppState) (a : Article) :
  App.reachable st → App.selectedArticle st = Some a →
  ∃ b, b ∈ mockArticles ∧ same_but_isBookmarked b a.
Proof.
  intros Hreach. revert a.
  induction Hreach as [|st e Hreach IH He]; [done|].
  pose proof (reachable_articles st Hreach) as Hsame.
  assert (∀ a, a ∈ App.articles st →
               ∃ b, b ∈ mockArticles ∧ same_but_isBookmarked b a) as Hseed.
  { intros a Ha. by eapply Forall2_elem_of_r. }
  intros a. destruct e; simpl; try (by apply IH); try done.
  - destruct (App.showInstallButton st); by apply IH.
  - intros [= <-]. apply Hseed. simpl in He.
    destruct (App.screen st); [|done|].
    + by eapply filterByCategory_subseteq.
    + by apply list_elem_of_filter in He as [_ ?].
  - intros [= <-]. apply Hseed. destruct He as (_ & _ & He).
    by eapply search_subseteq.
Qed.
End InvariantFacts.

Lemma reachable_witness_state :
  App.reachable (H:=ascii_platform)
    (App.step (App.step App.initialState (App.CategoryClick (lit "sport")))
              (App.ArticleClick article_3)).
Proof.
  apply App.reachable_step.
  - apply App.reachable_step; [apply App.reachable_init|].
    split; [reflexivity|]. apply (bool_decide_unpack _). by vm_compute.
  - simpl. apply (bool_decide_unpack _). by vm_compute.
Defined.

Lemma reachable_collection_is_seed_up_to_flags_witness :
  let st := App.step (App.step App.initialState
                        (App.CategoryClick (lit "sport")))
                     (App.ArticleClick article_3) in
  App.reachable (H:=ascii_platform) st ∧
  id <$> App.articles st = id <$> mockArticles.
Proof.
  intros st. split; [exact reachable_witness_state|].
  exact (proj1 (proj2 (proj2
    (reachable_collection_is_seed_up_to_flags (H:=ascii_platform) st
       reachable_witness_state)))).
Defined.

Lemma reachable_active_category_is_navigable_witness :
  let st := App.step (App.step App.initialState
                        (App.CategoryClick (lit "sport")))
                     (App.ArticleClick article_3) in
  App.reachable (H:=ascii_platform) st ∧
  App.activeCategory st ∈ App.categories.
Proof.
  intros st. split; [exact reachable_witness_state|].
  exact (proj1 (reachable_active_category_is_navigable (H:=ascii_platform) st
                  reachable_witness_state)).
Defined.

Lemma reachable_install_is_final_witness :
  let st := App.step App.initialState App.InstallClick in
  App.reachable (H:=ascii_platform) st ∧
  App.showInstallButton st = false ∧
  App.showInstallPrompt (App.step st App.InstallTimer) = false.
Proof.
  intros st.
  assert (App.reachable (H:=ascii_platform) st) as Hreach.
  { apply App.reachable_step; [apply App.reachable_init|]. by split. }
  split; [exact Hreach|]. split; [reflexivity|].
  exact (proj2 (proj2 (proj2
    (reachable_install_is_final (H:=ascii_platform) st Hreach) eq_refl)
    App.InstallTimer)).
Defined.

Lemma reachable_selected_article_is_seeded_witness :
  let st := App.step (App.step App.initialState
                        (App.CategoryClick (lit "sport")))
                     (App.ArticleClick article_3) in
  App.reachable (H:=ascii_platform) st ∧
  App.selectedArticle st = Some article_3 ∧
  ∃ b, b ∈ mockArticles ∧ same_but_isBookmarked b article_3.
Proof.
  intros st. split; [exact reachable_witness_state|]. split; [reflexivity|].
  exact (reachable_selected_article_is_seeded (H:=ascii_platform) st article_3
           reachable_witness_state eq_refl).
Defined.

(* ===================================================================== *)
(** ** More on the screens *)
(* ===================================================================== *)

Section MoreScreenFacts.
Context `{Platform}.

(** The article view shows the copy taken when the article was opened:
    after its bookmark button is used, the collection holds the article
    with the flag negated while the view still holds the old flag. *)
Theorem article_view_keeps_old_flag (st : App.AppState) (a : Article) :
  App.isOffline st = false →
  App.selectedArticle st = Some a →
  App.findById (App.articles st) (id a) = Some a →
  App.available st (App.Bookmark (id a)) ∧
  App.screen (App.step st (App.Bookmark (id a))) = App.ARTICLE ∧
  App.selectedArticle (App.step st (App.Bookmark (id a))) = Some a ∧
  App.findById (App.articles (App.step st (App.Bookmark (id a)))) (id a)
    = Some (with_isBookmarked a (negb (isBookmarked a))) ∧
  with_isBookmarked a (negb (isBookmarked a)) ≠ a.
Proof.
  intros Hon Hsel Hfind. unfold App.available, App.screen.
  simpl. rewrite Hon, Hsel. split_and!; try done.
  - by rewrite findById_toggleBookmark, Hfind.
  - intros Heq. apply (f_equal isBookmarked) in Heq. simpl in Heq.
    by destruct (isBookmarked a).
Qed.

(** From LIST and from ARTICLE. With the offline flag clear, the screen is
    ARTICLE when an article is selected and LIST when none is. An event
    that leaves ARTICLE is back (to LIST) or the browser's [offline] event
    (to OFFLINE); an event that leaves LIST is a click on an article or on
    a search result (to ARTICLE), or the [offline] event or the preview
    button (to OFFLINE). *)
Theorem online_screen_transitions (st : App.AppState) (e : App.Event) :
  App.isOffline st = false → App.available st e →
  match App.selectedArticle st with
  | Some _ =>
      App.screen st = App.ARTICLE ∧
      (App.screen (App.step st e) = App.ARTICLE ∨
       (e = App.ArticleBack ∧ App.screen (App.step st e) = App.LIST) ∨
       (e = App.WindowOffline ∧ App.screen (App.step st e) = App.OFFLINE))
  | None =>
      App.screen st = App.LIST ∧
      (App.screen (App.step st e) = App.LIST ∨
       ((∃ a, e = App.ArticleClick a ∨ ∃ q, e = App.SearchResultClick q a) ∧
        App.screen (App.step st e) = App.ARTICLE) ∨
       ((e = App.WindowOffline ∨ e = App.PreviewOffline) ∧
        App.screen (App.step st e) = App.OFFLINE))
  end.
Proof.
  intros Hon He. unfold App.screen in *.
  destruct (App.selectedArticle st) as [a|] eqn:Hsel.
  - split; [by rewrite Hon|].
    destruct e; simpl in *; unfold App.screen in *; simpl in *;
      rewrite ?Hon, ?Hsel in *;
      try (by destruct He); try (left; done); try (by eauto).
    left. by destruct (App.showInstallButton st); simpl; rewrite Hon, Hsel.
  - split; [by rewrite Hon|].
    destruct e; simpl in *; unfold App.screen in *; simpl in *;
      rewrite ?Hon, ?Hsel in *;
      try (by destruct He); try (left; done); try (by eauto 10).
    left. by destruct (App.showInstallButton st); simpl; rewrite Hon, Hsel.
Qed.

(** What the list screen shows of the filtered articles: the featured
    article followed by the regular ones is the filtered sequence, so every
    filtered article is shown once; there is no featured article exactly
    when the sequence is empty; the preview button, which sits in the
    header of the regular articles, needs at least two filtered articles;
    and "View All Articles", offered on the empty sequence, brings the
    whole collection back. *)
Theorem list_screen_shows_every_filtered_article (st : App.AppState) :
  option_list (App.featuredArticle st) ++ App.regularArticles st
    = App.filteredArticles st ∧
  (App.featuredArticle st = None ↔ App.filteredArticles st = []) ∧
  (App.available st App.PreviewOffline →
     2 ≤ length (App.filteredArticles st)) ∧
  (App.available st App.ViewAllArticles →
     App.featuredArticle st = None ∧
     App.filteredArticles (App.step st App.ViewAllArticles) = App.articles st).
Proof.
  unfold App.featuredArticle, App.regularArticles, App.composeCategoryView.
  simpl. split_and!.
  - by destruct (App.filteredArticles st).
  - by destruct (App.filteredArticles st).
  - intros [_ Hne]. unfold App.regularArticles in Hne. simpl in Hne.
    destruct (App.filteredArticles st) as [|a [|b l]]; simpl in *;
      [done | done | lia].
  - intros [_ Hnil]. rewrite Hnil. split; [done|].
    unfold App.filteredArticles. simpl. apply filterByCategory_home.
Qed.
End MoreScreenFacts.

(** Going offline and coming back changes nothing: from a state with the
    offline flag clear, the browser's [offline] then [online] events, and
    the preview button followed by retry or by back, give the state back. *)
Theorem offline_round_trip (st : App.AppState) :
  App.isOffline st = false →
  App.step (App.step st App.WindowOffline) App.WindowOnline = st ∧
  App.step (App.step st App.PreviewOffline) App.Retry = st ∧
  App.step (App.step st App.PreviewOffline) App.OfflineBack = st.
Proof.
  intros Hon. destruct st. simpl in *. subst. by split_and!.
Qed.

Lemma article_view_keeps_old_flag_witness :
  let st := App.setSelectedArticle (Some article_2) App.initialState in
  App.isOffline st = false ∧
  App.selectedArticle st = Some article_2 ∧
  App.findById (App.articles st) (id article_2) = Some article_2 ∧
  App.selectedArticle (App.step st (App.Bookmark (id article_2)))
    = Some article_2 ∧
  isBookmarked <$>
    App.findById (App.articles (App.step st (App.Bookmark (id article_2))))
      (id article_2) = Some false.
Proof.
  intros st.
  pose proof (article_view_keeps_old_flag (H:=ascii_platform) st article_2
                eq_refl eq_refl eq_refl) as (_ & _ & Hsel & Hfind & _).
  split_and!; [reflexivity | reflexivity | reflexivity | exact Hsel |].
  by rewrite Hfind.
Defined.

Lemma online_screen_transitions_witness :
  App.isOffline App.initialState = false ∧
  App.available (H:=ascii_platform) App.initialState
    (App.ArticleClick article_1) ∧
  App.screen (App.step App.initialState (App.ArticleClick article_1))
    = App.ARTICLE.
Proof.
  assert (App.available (H:=ascii_platform) App.initialState
            (App.ArticleClick article_1)) as He.
  { simpl. apply list_elem_of_here. }
  split; [reflexivity|]. split; [exact He|].
  pose proof (online_screen_transitions (H:=ascii_platform)
                App.initialState (App.ArticleClick article_1) eq_refl He)
    as Hthm.
  simpl in Hthm. destruct Hthm as [_ [Hl | [[_ Ha] | [_ Ho]]]];
    [discriminate Hl | exact Ha | discriminate Ho].
Defined.

Lemma list_screen_shows_every_filtered_article_witness :
  App.available (H:=ascii_platform) App.initialState App.PreviewOffline ∧
  2 ≤ length (App.filteredArticles App.initialState).
Proof.
  assert (App.available (H:=ascii_platform) App.initialState
            App.PreviewOffline) as He.
  { split; [reflexivity|]. by vm_compute. }
  split; [exact He|].
  exact (proj1 (proj2 (proj2
    (list_screen_shows_every_filtered_article (H:=ascii_platform)
       App.initialState))) He).
Defined.

Lemma offline_round_trip_witness :
  App.isOffline App.initialState = false ∧
  App.step (App.step App.initialState App.PreviewOffline) App.Retry
    = App.initialState.
Proof.
  split; [reflexivity|].
  exact (proj1 (proj2 (offline_round_trip App.initialState eq_refl))).
Defined.

(* ===================================================================== *)
(** ** More on the contact-form handler *)
(* ===================================================================== *)

Lemma notSpaceNorAt_true (c : N) :
  notSpaceNorAt c = true ↔ isWhiteSpace c = false ∧ c ≠ 64%N.
Proof.
  unfold notSpaceNorAt. rewrite negb_true_iff, orb_false_iff, N.eqb_neq. done.
Qed.

Lemma filter_at_none (s : jsstring) :
  Forall (λ c, notSpaceNorAt c = true) s → filter (λ c, c = 64%N) s = [].
Proof.
  induction 1 as [|c s Hc _ IH]; [done|].
  apply notSpaceNorAt_true in Hc as [_ Hc]. by rewrite filter_cons_False.
Qed.

Lemma Forall_not_whitespace (s : jsstring) :
  Forall (λ c, notSpaceNorAt c = true) s →
  Forall (λ c, isWhiteSpace c = false) s.
Proof.
  intros Hs. eapply Forall_impl; [exact Hs|].
  by intros c [? _]%notSpaceNorAt_true.
Qed.

(** What [emailRegex] never accepts: a string with white space in it, a
    string without [@] or with more than one, a string of fewer than five
    code units, or a string that starts with [@]. *)
Theorem emailRegex_accepts_only (s : jsstring) :
  regex_test emailRegex s = true →
  Forall (λ c, isWhiteSpace c = false) s ∧
  length (filter (λ c, c = 64%N) s) = 1 ∧
  5 ≤ length s ∧
  (∃ c, s !! 0 = Some c ∧ c ≠ 64%N).
Proof.
  intros Htest. apply regex_test_spec, emailRegex_shape in Htest
    as (l & d & t & -> & [Hl Hlok] & [Hd Hdok] & [Ht Htok]).
  split_and!.
  - rewrite !Forall_app. split_and!; try by apply Forall_not_whitespace.
    + by repeat constructor.
    + by repeat constructor.
  - rewrite !filter_app.
    rewrite (filter_at_none l), (filter_at_none d), (filter_at_none t) by done.
    done.
  - rewrite !length_app. simpl.
    destruct l, d, t; simpl in *; try done; lia.
  - destruct l as [|c l]; [done|]. exists c. split; [reflexivity|].
    apply Forall_cons in Hlok as [Hc _].
    by apply notSpaceNorAt_true in Hc as [_ ?].
Qed.

Lemma emailRegex_accepts_only_witness :
  regex_test emailRegex (lit "thandi@example.co.za") = true ∧
  length (filter (λ c, c = 64%N) (lit "thandi@example.co.za")) = 1.
Proof.
  assert (regex_test emailRegex (lit "thandi@example.co.za") = true) as Ht
    by (by vm_compute).
  split; [exact Ht|].
  exact (proj1 (proj2 (emailRegex_accepts_only _ Ht))).
Defined.

Section MoreContactFormFacts.
Context `{Platform}.

(** The handler answers [success: true] only to a POST request whose body
    is JSON text with truthy [name], [email] and [message] and an [email]
    that converts to a string of the accepted shape, and to every such
    request; its status code is always 200, 400, 405 or 500, and 405
    exactly for the methods other than OPTIONS and POST. *)
Theorem contact_form_accepts_exactly (clock : Clock) (event : HandlerEvent) :
  (bodyMember (handler clock event) (lit "success") = Some (JBool true) ↔
   httpMethod event = lit "POST" ∧
   ∃ value text,
     eventBody event = JSONText value ∧
     ToBoolean (Get value (lit "name")) = true ∧
     ToBoolean (Get value (lit "email")) = true ∧
     ToBoolean (Get value (lit "message")) = true ∧
     Get value (lit "email") ≫= ToString = Some text ∧
     regex_test emailRegex text = true) ∧
  statusCode (handler clock event) ∈ [200; 400; 405; 500]%N ∧
  (statusCode (handler clock event) = 405%N ↔
   httpMethod event ≠ lit "OPTIONS" ∧ httpMethod event ≠ lit "POST").
Proof.
  unfold handler.
  destruct (decide (httpMethod event = lit "OPTIONS")) as [Hopt|Hopt].
  { split_and!.
    - split; [by vm_compute|]. intros [Hpost _]. rewrite Hpost in Hopt.
      by vm_compute in Hopt.
    - apply (bool_decide_unpack _). by vm_compute.
    - split; [by vm_compute | by intros [? _]]. }
  destruct (decide (httpMethod event ≠ lit "POST")) as [Hpost|Hpost].
  { split_and!.
    - split; [by vm_compute | by intros [? _]].
    - apply (bool_decide_unpack _). by vm_compute.
    - done. }
  apply dec_stable in Hpost.
  assert (∀ n : N, n ≠ 405%N →
            (n = 405%N ↔
             httpMethod event ≠ lit "OPTIONS" ∧ httpMethod event ≠ lit "POST"))
    as H405 by (intros r Hr; split; [done | by intros [_ ?]]).
  unfold tryBlock.
  destruct (eventBody event) as [| |value] eqn:Hbody.
  1,2: split_and!; [|apply (bool_decide_unpack _); by vm_compute|by apply H405].
  1,2: split; [by vm_compute|]; by intros (_ & ? & ? & ? & _).
  assert (value = JNull ∨ value ≠ JNull) as [->|Hnull]
    by (destruct value; auto).
  { split_and!; [|apply (bool_decide_unpack _); by vm_compute|by apply H405].
    split; [by vm_compute|]. by intros (_ & ? & ? & [= <-] & ? & _). }
  assert (∀ T (x y : T), match value with JNull => x | _ => y end = y) as Hm
    by (intros; by destruct value).
  rewrite Hm. clear Hm.
  destruct (ToBoolean (Get value (lit "name"))) eqn:Hn;
  destruct (ToBoolean (Get value (lit "email"))) eqn:He;
  destruct (ToBoolean (Get value (lit "message"))) eqn:Hmsg; simpl.
  2-8: split_and!; [|apply (bool_decide_unpack _); by vm_compute|by apply H405].
  2-8: split; [by vm_compute|];
       intros (_ & v & t & [= <-] & ? & ? & ? & _); congruence.
  destruct (Get value (lit "email") ≫= ToString) as [text|] eqn:Htext.
  2: { split_and!; [|apply (bool_decide_unpack _); by vm_compute|by apply H405].
       split; [by vm_compute|].
       intros (_ & v & t & [= <-] & _ & _ & _ & ? & _). congruence. }
  destruct (regex_test emailRegex text) eqn:Htest; simpl.
  - split_and!; [|apply (bool_decide_unpack _); by vm_compute|by apply H405].
    split; [|by vm_compute]. intros _. split; [done|].
    exists value, text. by split_and!.
  - split_and!; [|apply (bool_decide_unpack _); by vm_compute|by apply H405].
    split; [by vm_compute|].
    intros (_ & v & t & [= <-] & _ & _ & _ & ? & ?). congruence.
Qed.

(** The response depends on the request fields only through the
    truthiness of [name] and [message] and through [email]: [subject],
    [category], any other member, and the texts of the name and of the
    message never reach it. *)
Theorem contact_form_reads_three_fields
    (clock : Clock) (event1 event2 : HandlerEvent) (value1 value2 : JSON) :
  httpMethod event1 = httpMethod event2 →
  eventBody event1 = JSONText value1 → eventBody event2 = JSONText value2 →
  value1 ≠ JNull → value2 ≠ JNull →
  ToBoolean (Get value1 (lit "name")) = ToBoolean (Get value2 (lit "name")) →
  ToBoolean (Get value1 (lit "message"))
    = ToBoolean (Get value2 (lit "message")) →
  Get value1 (lit "email") = Get value2 (lit "email") →
  handler clock event1 = handler clock event2.
Proof.
  intros Hmethod Hb1 Hb2 Hn1 Hn2 Hname Hmsg Hemail.
  unfold handler. rewrite Hmethod.
  rewrite (tryBlock_parsed clock event1 value1 Hb1 Hn1).
  rewrite (tryBlock_parsed clock event2 value2 Hb2 Hn2).
  by rewrite Hname, Hmsg, Hemail.
Qed.
End MoreContactFormFacts.

Lemma contact_form_reads_three_fields_witness :
  let clock := {| Date_now := 1734510600000%N;
                  Date_toISOString := lit "2024-12-18T08:30:00.000Z" |} in
  let value1 :=
    JObject (H:=ascii_platform)
      [ (lit "name", JString (lit "Thandi"));
        (lit "email", JString (lit "thandi@example.co.za"));
        (lit "message", JString (lit "Hello")) ] in
  let value2 :=
    JObject (H:=ascii_platform)
      [ (lit "name", JString (lit "Sipho"));
        (lit "email", JString (lit "thandi@example.co.za"));
        (lit "subject", JString (lit "Advertising"));
        (lit "message", JString (lit "Please call me")) ] in
  handler clock {| httpMethod := lit "POST"; eventBody := JSONText value1 |}
  = handler clock {| httpMethod := lit "POST"; eventBody := JSONText value2 |}.
Proof.
  intros clock value1 value2.
  apply (contact_form_reads_three_fields (H:=ascii_platform) clock
           {| httpMethod := lit "POST"; eventBody := JSONText value1 |}
           {| httpMethod := lit "POST"; eventBody := JSONText value2 |}
           value1 value2); done.
Defined.

Lemma lit_inj (s t : string) : lit s = lit t → s = t.
Proof.
  unfold lit. intros Heq.
  rewrite <-(string_of_list_ascii_of_string s),
          <-(string_of_list_ascii_of_string t).
  f_equal. revert Heq.
  generalize (list_ascii_of_string s) (list_ascii_of_string t).
  induction l as [|a l IH]; intros [|b k] Heq; try done.
  rewrite !fmap_cons in Heq. injection Heq as Hab Hlk. f_equal.
  - by rewrite <-(ascii_N_embedding a), <-(ascii_N_embedding b), Hab.
  - by apply IH.
Qed.

Lemma decimal_inj (m n : N) : decimal m = decimal n → m = n.
Proof.
  unfold decimal. intros Heq%lit_inj.
  apply DecimalN.Unsigned.to_uint_inj.
  assert (∀ k, N.to_uint k ≠ Decimal.Nil) as Hnil.
  { intros [|p]; [done|]. apply DecimalPos.Unsigned.to_uint_nonnil. }
  apply (f_equal NilZero.uint_of_string) in Heq.
  rewrite !NilZero.usu in Heq by apply Hnil. congruence.
Qed.

(** Submission ids tell clock readings apart: two submissions get the same
    id exactly when [Date.now()] returned the same millisecond for both. *)
Theorem submissionId_same_iff_same_millisecond `{Platform} (clock1 clock2 : Clock) :
  (submissionId clock1 = submissionId clock2 ↔
   Date_now clock1 = Date_now clock2) ∧
  (bodyMember (accepted clock1) (lit "submissionId")
     = bodyMember (accepted clock2) (lit "submissionId") ↔
   Date_now clock1 = Date_now clock2).
Proof.
  assert (submissionId clock1 = submissionId clock2 ↔
          Date_now clock1 = Date_now clock2) as Hid.
  { unfold submissionId. split; [|by intros ->].
    intros Heq%app_inv_head. by apply decimal_inj. }
  split; [exact Hid|].
  assert (∀ clock, bodyMember (accepted clock) (lit "submissionId")
                   = Some (JString (submissionId clock))) as Hbody
    by (intros clock; reflexivity).
  rewrite !Hbody. rewrite <-Hid. split; congruence.
Qed.

(* ===================================================================== *)
(** ** The push-notification and example functions *)
(* ===================================================================== *)

Section FunctionsFacts.
Context `{Platform}.

Lemma pushHandler_object (errors : Functions.ErrorMessages) (clock : Clock)
    (event : HandlerEvent) (members : list (jsstring * JSON)) :
  httpMethod event ≠ lit "OPTIONS" →
  eventBody event = JSONText (JObject members) →
  Functions.pushHandler errors clock event =
    match member (lit "action") members with
    | Some (JString action) =>
        if decide (action = lit "subscribe")
        then Functions.handleSubscription clock
        else if decide (action = lit "unsubscribe")
        then Functions.handleUnsubscription
        else if decide (action = lit "send")
        then Functions.handleSendNotification clock (JObject members)
        else if decide (action = lit "test")
        then Functions.handleTestNotification clock
        else Functions.invalidAction
    | _ => Functions.invalidAction
    end.
Proof.
  intros Hopt Hbody. unfold Functions.pushHandler.
  rewrite decide_False by done. by rewrite Hbody.
Qed.

Lemma pushHandler_cases (errors : Functions.ErrorMessages) (clock : Clock)
    (event : HandlerEvent) :
  httpMethod event ≠ lit "OPTIONS" →
  let ok := ∃ members action,
    eventBody event = JSONText (JObject members) ∧
    member (lit "action") members = Some (JString action) ∧
    action ∈ [lit "subscribe"; lit "unsubscribe"; lit "send"; lit "test"] in
  let bad := eventBody event = Malformed ∨ eventBody event = JSONText JNull in
  (statusCode (Functions.pushHandler errors clock event) = 200%N ∧
   ok ∧ ¬ bad) ∨
  (statusCode (Functions.pushHandler errors clock event) = 500%N ∧
   bad ∧ ¬ ok) ∨
  (Functions.pushHandler errors clock event = Functions.invalidAction ∧
   ¬ ok ∧ ¬ bad).
Proof.
  intros Hopt ok bad. subst ok bad.
  destruct (eventBody event) as [| |value] eqn:Hbody.
  - right; right. unfold Functions.pushHandler.
    rewrite decide_False, Hbody by done. simpl.
    split_and!; [done | by intros (? & ? & ? & _) | by intros [?|?]].
  - right; left. unfold Functions.pushHandler.
    rewrite decide_False, Hbody by done. simpl.
    split_and!; [done | by left | by intros (? & ? & ? & _)].
  - destruct value as [|b|x|s|l|members].
    + right; left. unfold Functions.pushHandler.
      rewrite decide_False, Hbody by done. simpl.
      split_and!; [done | by right | by intros (? & ? & ? & _)].
    + right; right. unfold Functions.pushHandler.
      rewrite decide_False, Hbody by done. simpl.
      split_and!; [done | by intros (? & ? & ? & _) | by intros [?|?]].
    + right; right. unfold Functions.pushHandler.
      rewrite decide_False, Hbody by done. simpl.
      split_and!; [done | by intros (? & ? & ? & _) | by intros [?|?]].
    + right; right. unfold Functions.pushHandler.
      rewrite decide_False, Hbody by done. simpl.
      split_and!; [done | by intros (? & ? & ? & _) | by intros [?|?]].
    + right; right. unfold Functions.pushHandler.
      rewrite decide_False, Hbody by done. simpl.
      split_and!; [done | by intros (? & ? & ? & _) | by intros [?|?]].
    + rewrite (pushHandler_object errors clock event members Hopt Hbody).
      assert (¬ (JSONText (JObject members) = Malformed ∨
                 JSONText (JObject members) = JSONText JNull)) as Hgood
        by (by intros [?|?]).
      assert (∀ v, member (lit "action") members = Some v →
                (∀ action, v ≠ JString action) →
                ¬ ∃ ms action,
                    JSONText (JObject members) = JSONText (JObject ms) ∧
                    member (lit "action") ms = Some (JString action) ∧
                    action ∈ [lit "subscribe"; lit "unsubscribe";
                              lit "send"; lit "test"]) as Hother.
      { intros v Hv Hnot (ms & action & [= <-] & Ha & _).
        rewrite Hv in Ha. injection Ha as ->. by eapply Hnot. }
      destruct (member (lit "action") members) as [v|] eqn:Ha.
      2: { right; right. split_and!; [done| |done].
           by intros (ms & action & [= <-] & Ha' & _); congruence. }
      destruct v as [|b|x|action|l|ms];
        try (right; right; split_and!; [done| |done];
             by eapply Hother).
      assert (∀ r : Response, statusCode r = 200%N →
                action ∈ [lit "subscribe"; lit "unsubscribe";
                          lit "send"; lit "test"] →
                statusCode r = 200%N ∧
                (∃ ms a, JSONText (JObject members) = JSONText (JObject ms) ∧
                         member (lit "action") ms = Some (JString a) ∧
                         a ∈ [lit "subscribe"; lit "unsubscribe";
                              lit "send"; lit "test"]) ∧
                ¬ (JSONText (JObject members) = Malformed ∨
                   JSONText (JObject members) = JSONText JNull)) as Hyes.
      { intros r Hr Hin. split_and!; [done| |done]. by exists members, action. }
      destruct (decide (action = lit "subscribe")) as [->|H1].
      { left. apply Hyes; [done|]. apply (bool_decide_unpack _). by vm_compute. }
      destruct (decide (action = lit "unsubscribe")) as [->|H2].
      { left. apply Hyes; [done|]. apply (bool_decide_unpack _). by vm_compute. }
      destruct (decide (action = lit "send")) as [->|H3].
      { left. apply Hyes; [done|]. apply (bool_decide_unpack _). by vm_compute. }
      destruct (decide (action = lit "test")) as [->|H4].
      { left. apply Hyes; [done|]. apply (bool_decide_unpack _). by vm_compute. }
      right; right. split_and!; [done| |done].
      intros (ms' & a' & [= <-] & Ha' & Hin).
      assert (a' = action) as -> by congruence.
      repeat (apply elem_of_cons in Hin as [? | Hin]); try done.
      by apply elem_of_nil in Hin.
Qed.

(** How [push-notifications.js] answers a request that is not OPTIONS:
    200 exactly when the body is a JSON object whose [action] is one of the
    four action strings; 500 exactly when the body is a text that is not
    JSON or is the JSON text [null]; 400 with the list of valid actions
    otherwise, and in particular for a request without a body, which is
    read as [{}]. The method plays no part. *)
Theorem push_notifications_dispatch (errors : Functions.ErrorMessages)
    (clock : Clock) (event : HandlerEvent) :
  httpMethod event ≠ lit "OPTIONS" →
  (statusCode (Functions.pushHandler errors clock event) = 200%N ↔
   ∃ members action,
     eventBody event = JSONText (JObject members) ∧
     member (lit "action") members = Some (JString action) ∧
     action ∈ [lit "subscribe"; lit "unsubscribe"; lit "send"; lit "test"]) ∧
  (statusCode (Functions.pushHandler errors clock event) = 500%N ↔
   eventBody event = Malformed ∨ eventBody event = JSONText JNull) ∧
  (statusCode (Functions.pushHandler errors clock event) ≠ 200%N →
   statusCode (Functions.pushHandler errors clock event) ≠ 500%N →
   Functions.pushHandler errors clock event = Functions.invalidAction) ∧
  (eventBody event = NoBody →
   Functions.pushHandler errors clock event = Functions.invalidAction) ∧
  (∀ event', httpMethod event' ≠ lit "OPTIONS" →
     eventBody event' = eventBody event →
     Functions.pushHandler errors clock event'
     = Functions.pushHandler errors clock event).
Proof.
  intros Hopt.
  pose proof (pushHandler_cases errors clock event Hopt) as Hcases.
  simpl in Hcases. split_and!.
  - destruct Hcases as [(Hs & Hok & _) | [(Hs & _ & Hno) | (Hr & Hno & _)]].
    + done.
    + rewrite Hs. split; [done | by intros ?%Hno].
    + rewrite Hr. split; [done | by intros ?%Hno].
  - destruct Hcases as [(Hs & _ & Hno) | [(Hs & Hbad & _) | (Hr & _ & Hno)]].
    + rewrite Hs. split; [done | by intros ?%Hno].
    + done.
    + rewrite Hr. split; [done | by intros ?%Hno].
  - intros H200 H500.
    by destruct Hcases as [(Hs & _) | [(Hs & _) | (Hr & _)]].
  - intros Hbody. unfold Functions.pushHandler.
    by rewrite decide_False, Hbody by done.
  - intros event' Hopt' Hbody. unfold Functions.pushHandler.
    rewrite !decide_False by done. by rewrite Hbody.
Qed.

(** A [send] request: the response carries the notification id
    [notif_<Date.now()>]; it repeats the request's [scheduledFor] when that
    is truthy, and gives the current time when it is absent or falsy. *)
Theorem push_notifications_send_schedule (errors : Functions.ErrorMessages)
    (clock : Clock) (event : HandlerEvent) (members : list (jsstring * JSON)) :
  httpMethod event ≠ lit "OPTIONS" →
  eventBody event = JSONText (JObject members) →
  member (lit "action") members = Some (JString (lit "send")) →
  bodyMember (Functions.pushHandler errors clock event) (lit "notificationId")
    = Some (JString (lit "notif_" ++ decimal (Date_now clock))) ∧
  (∀ scheduledFor,
     member (lit "scheduledFor") members = Some scheduledFor →
     ToBoolean (Some scheduledFor) = true →
     bodyMember (Functions.pushHandler errors clock event)
       (lit "scheduledFor") = Some scheduledFor) ∧
  (ToBoolean (member (lit "scheduledFor") members) = false →
   bodyMember (Functions.pushHandler errors clock event) (lit "scheduledFor")
     = Some (JString (Date_toISOString clock))).
Proof.
  intros Hopt Hbody Haction.
  rewrite (pushHandler_object errors clock event members Hopt Hbody), Haction.
  rewrite decide_False by (by vm_compute).
  rewrite decide_False by (by vm_compute).
  rewrite decide_True by done.
  assert (bodyMember (Functions.handleSendNotification clock (JObject members))
            (lit "scheduledFor")
          = Some match member (lit "scheduledFor") members with
                 | Some scheduledFor =>
                     if ToBoolean (Some scheduledFor) then scheduledFor
                     else JString (Date_toISOString clock)
                 | None => JString (Date_toISOString clock)
                 end) as Hschedule by reflexivity.
  split_and!.
  - reflexivity.
  - intros v Hv Htrue. by rewrite Hschedule, Hv, Htrue.
  - intros Hfalse. rewrite Hschedule.
    destruct (member (lit "scheduledFor") members) as [v|]; [|done].
    by rewrite Hfalse.
Qed.

(** How [example-api.js] answers a request that is not OPTIONS: 500 with
    the parser's message when the body is a text that is not JSON, and
    otherwise 200 with the method repeated and a name that is never empty,
    the [name] query parameter or ["Anonymous"]. What the body says plays
    no part: even the JSON text [null] is answered 200. *)
Theorem example_api_answers (errors : Functions.ErrorMessages)
    (clock : Clock) (event : Functions.ApiEvent) :
  Functions.apiMethod event ≠ lit "OPTIONS" →
  (Functions.apiBody event = Malformed →
   statusCode (Functions.apiHandler errors clock event) = 500%N ∧
   bodyMember (Functions.apiHandler errors clock event) (lit "message")
     = Some (JString (Functions.syntaxErrorMessage errors))) ∧
  (Functions.apiBody event ≠ Malformed →
   statusCode (Functions.apiHandler errors clock event) = 200%N ∧
   bodyMember (Functions.apiHandler errors clock event) (lit "method")
     = Some (JString (Functions.apiMethod event)) ∧
   (∃ name, name ≠ [] ∧
      bodyMember (Functions.apiHandler errors clock event) (lit "name")
        = Some (JString name) ∧
      (name = lit "Anonymous" ∨
       ∃ params, Functions.queryStringParameters event = Some params ∧
                 Functions.queryParameter (lit "name") params = Some name)) ∧
   ∀ event',
     Functions.apiMethod event' = Functions.apiMethod event →
     Functions.queryStringParameters event'
       = Functions.queryStringParameters event →
     Functions.apiBody event' ≠ Malformed →
     Functions.apiHandler errors clock event'
     = Functions.apiHandler errors clock event).
Proof.
  intros Hopt. unfold Functions.apiHandler. rewrite decide_False by done.
  split.
  - intros ->. simpl. split; [done | by vm_compute].
  - intros Hbody.
    assert (∀ b, b ≠ Malformed →
              ∃ v, Functions.guardedBody errors b = inl v) as Hguard.
    { intros [| |v] Hb; simpl; eauto. done. }
    destruct (Hguard _ Hbody) as [v ->]. split_and!.
    + done.
    + by vm_compute.
    + destruct (Functions.queryStringParameters event) as [params|] eqn:Hq.
      * destruct (Functions.queryParameter (lit "name") params)
          as [[|c s]|] eqn:Hname.
        -- exists (lit "Anonymous"). split_and!; [done | by vm_compute | by left].
        -- exists (c :: s). split_and!; [done | by vm_compute |].
           right. by exists params.
        -- exists (lit "Anonymous"). split_and!; [done | by vm_compute | by left].
      * exists (lit "Anonymous"). split_and!; [done | by vm_compute | by left].
    + intros event' Hm Hq Hbody'. rewrite Hm, Hq.
      rewrite decide_False by done.
      by destruct (Hguard _ Hbody') as [v' ->].
Qed.
End FunctionsFacts.

Lemma push_notifications_dispatch_witness :
  let errors := {| Functions.syntaxErrorMessage := lit "Unexpected token";
                   Functions.typeErrorMessage := lit "Cannot destructure" |} in
  let clock := {| Date_now := 1734510600000%N;
                  Date_toISOString := lit "2024-12-18T08:30:00.000Z" |} in
  let event := {| httpMethod := lit "GET";
                  eventBody := NoBody (H:=ascii_platform) |} in
  httpMethod event ≠ lit "OPTIONS" ∧
  Functions.pushHandler errors clock event = Functions.invalidAction.
Proof.
  intros errors clock event.
  assert (httpMethod event ≠ lit "OPTIONS") as Hopt by (by vm_compute).
  split; [exact Hopt|].
  exact (proj1 (proj2 (proj2 (proj2
    (push_notifications_dispatch (H:=ascii_platform) errors clock event Hopt))))
    eq_refl).
Defined.

Lemma push_notifications_send_schedule_witness :
  let errors := {| Functions.syntaxErrorMessage := lit "Unexpected token";
                   Functions.typeErrorMessage := lit "Cannot destructure" |} in
  let clock := {| Date_now := 1734510600000%N;
                  Date_toISOString := lit "2024-12-18T08:30:00.000Z" |} in
  let members :=
    [ (lit "action", JString (H:=ascii_platform) (lit "send"));
      (lit "title", JString (lit "Election results"));
      (lit "scheduledFor", JString (lit "2024-12-19T06:00:00.000Z")) ] in
  let event := {| httpMethod := lit "POST";
                  eventBody := JSONText (JObject members) |} in
  httpMethod event ≠ lit "OPTIONS" ∧
  member (lit "action") members = Some (JString (lit "send")) ∧
  bodyMember (Functions.pushHandler errors clock event) (lit "scheduledFor")
    = Some (JString (lit "2024-12-19T06:00:00.000Z")).
Proof.
  intros errors clock members event.
  assert (httpMethod event ≠ lit "OPTIONS") as Hopt by (by vm_compute).
  split; [exact Hopt|]. split; [reflexivity|].
  exact (proj1 (proj2
    (push_notifications_send_schedule (H:=ascii_platform) errors clock event
       members Hopt eq_refl eq_refl))
    (JString (lit "2024-12-19T06:00:00.000Z")) eq_refl eq_refl).
Defined.

Lemma example_api_answers_witness :
  let errors := {| Functions.syntaxErrorMessage := lit "Unexpected token";
                   Functions.typeErrorMessage := lit "Cannot destructure" |} in
  let clock := {| Date_now := 1734510600000%N;
                  Date_toISOString := lit "2024-12-18T08:30:00.000Z" |} in
  let event :=
    {| Functions.apiMethod := lit "POST";
       Functions.queryStringParameters := Some [(lit "name", [])];
       Functions.apiBody := JSONText (JNull (H:=ascii_platform)) |} in
  Functions.apiMethod event ≠ lit "OPTIONS" ∧
  Functions.apiBody event ≠ Malformed ∧
  statusCode (Functions.apiHandler errors clock event) = 200%N.
Proof.
  intros errors clock event.
  assert (Functions.apiMethod event ≠ lit "OPTIONS") as Hopt
    by (by vm_compute).
  assert (Functions.apiBody event ≠ Malformed) as Hbody by done.
  split; [exact Hopt|]. split; [exact Hbody|].
  exact (proj1 (proj2
    (example_api_answers (H:=ascii_platform) errors clock event Hopt) Hbody)).
Defined.

(* ===================================================================== *)
(** ** Dates, notification preferences, sharing *)
(* ===================================================================== *)

Lemma hours_bounds (x : Z) :
  (3600000 * (x / 3600000) ≤ x < 3600000 * (x / 3600000 + 1))%Z.
Proof.
  pose proof (Z.div_mod x 3600000 ltac:(lia)) as Hdm.
  pose proof (Z.mod_pos_bound x 3600000 ltac:(lia)) as Hmod. lia.
Qed.

(** The three labels of [formatDate]: ["Just now"] for a date less than an
    hour before now, a date in the future included; [`${h}h ago`] with [h]
    the whole hours elapsed, from 1 to 23; and the locale's date text from
    24 hours on and for a date string that does not parse. *)
Theorem formatDate_labels (now : Z) (date : option Z) :
  (ArticleCard.formatDate now date = ArticleCard.JustNow ↔
   ∃ time, date = Some time ∧ (now - time < 3600000)%Z) ∧
  (∀ h, ArticleCard.formatDate now date = ArticleCard.HoursAgo h ↔
        ∃ time, date = Some time ∧ (1 ≤ h ≤ 23)%Z ∧
                (3600000 * h ≤ now - time < 3600000 * (h + 1))%Z) ∧
  (∀ shown, ArticleCard.formatDate now date
            = ArticleCard.LocaleDateString shown ↔
     shown = date ∧
     (date = None ∨ ∃ time, date = Some time ∧ (86400000 ≤ now - time)%Z)).
Proof.
  unfold ArticleCard.formatDate. destruct date as [time|].
  2: { split_and!.
       - split; [done | by intros (? & ? & _)].
       - intros h. split; [done | by intros (? & ? & _)].
       - intros shown. split; [intros [= <-]; auto | by intros [-> _]]. }
  change (1000 * 60 * 60)%Z with 3600000%Z. simpl.
  pose proof (hours_bounds (now - time)) as Hb.
  destruct (Z.ltb_spec ((now - time) / 3600000) 1) as [H1|H1];
    [|destruct (Z.ltb_spec ((now - time) / 3600000) 24) as [H24|H24]].
  - split_and!.
    + split; [intros _; exists time; split; [done | lia]|done].
    + intros h. split; [done|]. intros (t & [= <-] & Hh & Hrange).
      exfalso. nia.
    + intros shown. split; [done|].
      intros [_ [? | (t & [= <-] & Hlate)]]; [done|]. exfalso. lia.
  - split_and!.
    + split; [done|]. intros (t & [= <-] & Hsoon). exfalso. lia.
    + intros h. split.
      * intros [= <-]. exists time. split; [done|]. lia.
      * intros (t & [= <-] & Hh & Hrange). f_equal. nia.
    + intros shown. split; [done|].
      intros [_ [? | (t & [= <-] & Hlate)]]; [done|]. exfalso. lia.
  - split_and!.
    + split; [done|]. intros (t & [= <-] & Hsoon). exfalso. lia.
    + intros h. split; [done|]. intros (t & [= <-] & Hh & Hrange).
      exfalso. nia.
    + intros shown. split.
      * intros [= <-]. split; [done|]. right. exists time. split; [done|]. lia.
      * by intros [-> _].
Qed.

Lemma getNotification_change_same (category : jsstring) (enabled : bool)
    (prev : list (jsstring * bool)) :
  SettingsDialog.getNotification
    (SettingsDialog.handleNotificationChange category enabled prev) category
  = Some enabled.
Proof.
  induction prev as [|[k v] rest IH]; simpl.
  - by rewrite decide_True.
  - destruct (decide (k = category)) as [->|Hk]; simpl.
    + by rewrite decide_True.
    + by rewrite decide_False.
Qed.

Lemma getNotification_change_other (category other : jsstring) (enabled : bool)
    (prev : list (jsstring * bool)) :
  other ≠ category →
  SettingsDialog.getNotification
    (SettingsDialog.handleNotificationChange category enabled prev) other
  = SettingsDialog.getNotification prev other.
Proof.
  intros Hother. induction prev as [|[k v] rest IH]; simpl.
  - by rewrite decide_False.
  - destruct (decide (k = category)) as [->|Hk]; simpl.
    + by rewrite !decide_False.
    + destruct (decide (k = other)); [done | apply IH].
Qed.

(** A notification switch sets its own category and no other: after a
    change the category reads the new value and every other category reads
    what it read before; a second change of the same category overrides
    the first; and setting a category to the value it has changes
    nothing. *)
Theorem notification_change_is_local (category : jsstring) (enabled : bool)
    (prev : list (jsstring * bool)) :
  SettingsDialog.getNotification
    (SettingsDialog.handleNotificationChange category enabled prev) category
  = Some enabled ∧
  (∀ other, other ≠ category →
     SettingsDialog.getNotification
       (SettingsDialog.handleNotificationChange category enabled prev) other
     = SettingsDialog.getNotification prev other) ∧
  (∀ enabled',
     SettingsDialog.handleNotificationChange category enabled
       (SettingsDialog.handleNotificationChange category enabled' prev)
     = SettingsDialog.handleNotificationChange category enabled prev) ∧
  (SettingsDialog.getNotification prev category = Some enabled →
   SettingsDialog.handleNotificationChange category enabled prev = prev).
Proof.
  split_and!.
  - apply getNotification_change_same.
  - intros other. apply getNotification_change_other.
  - intros enabled'. induction prev as [|[k v] rest IH]; simpl.
    + by rewrite decide_True.
    + destruct (decide (k = category)) as [->|Hk]; simpl.
      * by rewrite decide_True.
      * rewrite decide_False by done. by rewrite IH.
  - induction prev as [|[k v] rest IH]; simpl; [done|].
    destruct (decide (k = category)) as [->|Hk].
    + by intros [= ->].
    + intros Hrest. by rewrite IH.
Qed.

(** The switches keep their places: changing a category that the
    preferences have leaves the list of categories as it was, in order;
    from the initial preferences, whose categories are distinct, the
    summary of enabled notifications lists a category exactly when its
    switch reads enabled, and lists the changed category exactly when it
    was switched on. *)
Theorem notification_change_keeps_switches (category : jsstring)
    (enabled : bool) (prev : list (jsstring * bool)) :
  category ∈ prev.*1 →
  (SettingsDialog.handleNotificationChange category enabled prev).*1
    = prev.*1 ∧
  (NoDup prev.*1 →
   (∀ k, (k, true) ∈ SettingsDialog.enabledNotifications prev ↔
         SettingsDialog.getNotification prev k = Some true) ∧
   ((category, true) ∈ SettingsDialog.enabledNotifications
       (SettingsDialog.handleNotificationChange category enabled prev) ↔
    enabled = true)).
Proof.
  intros Hin.
  assert ((SettingsDialog.handleNotificationChange category enabled prev).*1
          = prev.*1) as Hkeys.
  { induction prev as [|[k v] rest IH]; simpl.
    - by apply elem_of_nil in Hin.
    - destruct (decide (k = category)) as [->|Hk]; simpl; [done|].
      f_equal. apply IH. rewrite fmap_cons in Hin.
      by apply elem_of_cons in Hin as [?|?]. }
  split; [exact Hkeys|]. intros Hnodup.
  assert (∀ l : list (jsstring * bool), NoDup l.*1 →
            ∀ k, (k, true) ∈ SettingsDialog.enabledNotifications l ↔
                 SettingsDialog.getNotification l k = Some true) as Hsummary.
  { clear. intros l Hl k. unfold SettingsDialog.enabledNotifications.
    rewrite list_elem_of_filter. simpl.
    induction l as [|[k' v] rest IH]; simpl.
    - split; [by intros [_ ?%elem_of_nil] | done].
    - rewrite fmap_cons in Hl. apply NoDup_cons in Hl as [Hk' Hrest].
      rewrite elem_of_cons. destruct (decide (k' = k)) as [->|Hk].
      + split; [|intros [= ->]; auto].
        intros [_ [[= <-] | Hin]]; [done|]. exfalso. apply Hk'.
        apply list_elem_of_fmap. by exists (k, true).
      + rewrite <-(IH Hrest). split; [|naive_solver].
        intros [_ [[= ? ?] | ?]]; [done | auto]. }
  split; [by apply Hsummary|].
  rewrite Hsummary by (by rewrite Hkeys).
  rewrite getNotification_change_same. split; [by intros [= ->] | by intros ->].
Qed.

(** Who hears what about a share. [handleShare] of [App.tsx] shows "Link
    copied" exactly when the share sheet did not succeed and the clipboard
    write did; it shows nothing exactly when the share sheet succeeded, and
    ends in an unhandled rejection exactly when the share sheet failed and
    there is no clipboard; without a share API it always shows a toast.
    The article view gives the same feedback unless the share sheet fails:
    then it never falls back to the clipboard. *)
Theorem share_feedback (navigator : Share.Navigator) :
  (Share.handleShare navigator
     = Share.Shown (App.toast_success (lit "Link copied to clipboard!") None) ↔
   Share.share navigator ≠ Some Share.Resolves ∧
   Share.clipboard navigator = Some Share.Resolves) ∧
  (Share.handleShare navigator = Share.Nothing ↔
   Share.share navigator = Some Share.Resolves) ∧
  (Share.handleShare navigator = Share.UnhandledRejection ↔
   Share.share navigator = Some Share.Rejects ∧
   Share.clipboard navigator = None) ∧
  (Share.share navigator = None →
   ∃ toast, Share.handleShare navigator = Share.Shown toast) ∧
  (Share.articleViewHandleShare navigator = Share.handleShare navigator ↔
   ¬ (Share.share navigator = Some Share.Rejects ∧
      Share.clipboard navigator ≠ None)) ∧
  (Share.share navigator = Some Share.Rejects →
   Share.articleViewHandleShare navigator = Share.UnhandledRejection).
Proof.
  destruct navigator as [[[]|] [[]|]];
    unfold Share.handleShare, Share.articleViewHandleShare; simpl;
    split_and!; try done; try (by eauto); try (split; [done|]);
    try (by intros [? ?]); try (split; by intros [? ?]);
    try (by intros H; exfalso; apply H).
  all: split; [by intros _ [? ?] | done].
Qed.

Lemma notification_change_keeps_switches_witness :
  lit "sport" ∈ SettingsDialog.initialNotifications.*1 ∧
  (SettingsDialog.handleNotificationChange (lit "sport") true
     SettingsDialog.initialNotifications).*1
  = SettingsDialog.initialNotifications.*1 ∧
  (SettingsDialog.enabledNotifications
     (SettingsDialog.handleNotificationChange (lit "sport") true
        SettingsDialog.initialNotifications)).*1
  = [lit "breaking"; lit "business"; lit "sport"; lit "technology"].
Proof.
  assert (lit "sport" ∈ SettingsDialog.initialNotifications.*1) as Hin.
  { apply (bool_decide_unpack _). by vm_compute. }
  split; [exact Hin|]. split; [|by vm_compute].
  exact (proj1 (notification_change_keeps_switches (lit "sport") true
                  SettingsDialog.initialNotifications Hin)).
Defined.

Example formatDate_samples :
  let now := 1734510600000%Z in
  ArticleCard.formatDate now (Some now) = ArticleCard.JustNow ∧
  ArticleCard.formatDate now (Some (now + 86400000)%Z)
    = ArticleCard.JustNow ∧
  ArticleCard.formatDate now (Some (now - 3600000)%Z)
    = ArticleCard.HoursAgo 1 ∧
  ArticleCard.formatDate now (Some (now - 86399999)%Z)
    = ArticleCard.HoursAgo 23 ∧
  ArticleCard.formatDate now (Some (now - 86400000)%Z)
    = ArticleCard.LocaleDateString (Some (now - 86400000)%Z) ∧
  ArticleCard.formatDate now None = ArticleCard.LocaleDateString None.
Proof. by vm_compute. Qed.
